(** * PythonJail: a shallow embedding of [src/core/pyjail/pyjail.py]

    The development follows the layout of the module: the exceptions, the
    [TimeoutGuard] context manager, the [ExecutionResult] record and the
    [PythonJail] class with its keyword filter, decoy-flag drop, payload
    normaliser, escalation hook, VM harness and [execute_code].

    Conventions of the embedding.
    - A Python [str] is a [string]; the model covers the ASCII range, on which
      [lower], [upper], [strip] and the regular expression of the decoy file
      names are written out.  A Python [bytes] is a [list byte].
    - Mutable state is passed explicitly: the per-call state of [exec] (the two
      capture buffers, the escalation queue, the guard) is [exec_state], and
      the state outside the call (bait log, decoy directory, spawned workers,
      clock) is [world], threaded by the small state monad [M].
    - What Python itself or the operating system decides (the codec registry,
      [repr], [textwrap.shorten], float formatting, [compile]/[exec] of a
      snippet, the clock, [random.choice], the worker process) is a field of
      [pyenv], a parameter of the model.
    - A method that can raise returns a sum: the exception is on the right.
      An exception carries what [str] does on it, since the handlers format
      the exceptions they catch and [str] can raise in turn. *)

From Stdlib Require Import Strings.String Strings.Ascii Strings.Byte.
From Stdlib Require Import ZArith QArith List Lia Bool DecimalString DecimalNat.
From stdpp Require Import base gmap strings list fin_maps.

Set Default Proof Using "Type".

(* ===================================================================== *)
(** * Python string operations used by the module (ASCII range)          *)
(* ===================================================================== *)

Module Py.

Definition is_upper (c : ascii) : bool :=
  (65 <=? nat_of_ascii c) && (nat_of_ascii c <=? 90).

Definition is_lower (c : ascii) : bool :=
  (97 <=? nat_of_ascii c) && (nat_of_ascii c <=? 122).

Definition lower_char (c : ascii) : ascii :=
  if is_upper c then ascii_of_nat (nat_of_ascii c + 32) else c.

Definition upper_char (c : ascii) : ascii :=
  if is_lower c then ascii_of_nat (nat_of_ascii c - 32) else c.

Fixpoint map_chars (f : ascii -> ascii) (s : string) : string :=
  match s with
  | EmptyString => EmptyString
  | String c r => String (f c) (map_chars f r)
  end.

(** [s.lower()] and [s.upper()] *)
Definition lower : string -> string := map_chars lower_char.
Definition upper : string -> string := map_chars upper_char.

(** [needle in hay] on strings *)
Fixpoint contains (needle hay : string) : bool :=
  String.prefix needle hay ||
  match hay with
  | EmptyString => false
  | String _ r => contains needle r
  end.

(** the characters [str.strip] removes: TAB..CR, FS..US and the space *)
Definition is_space (c : ascii) : bool :=
  let n := nat_of_ascii c in
  ((9 <=? n) && (n <=? 13)) || ((28 <=? n) && (n <=? 32)).

Fixpoint lstrip (s : string) : string :=
  match s with
  | EmptyString => EmptyString
  | String c r => if is_space c then lstrip r else s
  end.

Fixpoint rstrip (s : string) : string :=
  match s with
  | EmptyString => EmptyString
  | String c r =>
      match rstrip r with
      | EmptyString => if is_space c then EmptyString else String c EmptyString
      | r' => String c r'
      end
  end.

Definition strip (s : string) : string := lstrip (rstrip s).

Definition CR : ascii := ascii_of_nat 13.
Definition LF : ascii := ascii_of_nat 10.
Definition nl : string := String LF EmptyString.

(** [s.replace("\r\n", "\n")] *)
Fixpoint replace_crlf (s : string) : string :=
  match s with
  | EmptyString => EmptyString
  | String c r =>
      match r with
      | String d _ =>
          if Ascii.eqb c CR && Ascii.eqb d LF then replace_crlf r
          else String c (replace_crlf r)
      | EmptyString => String c EmptyString
      end
  end.

(** [s.replace("\n", " ")] *)
Definition replace_nl_space : string -> string :=
  map_chars (fun c => if Ascii.eqb c LF then " "%char else c).

(** [sep.join(l)] *)
Fixpoint join (sep : string) (l : list string) : string :=
  match l with
  | [] => EmptyString
  | [x] => x
  | x :: r => x +:+ sep +:+ join sep r
  end.

(** truthiness of a [str] *)
Definition nonempty (s : string) : bool :=
  match s with EmptyString => false | _ => true end.

(** [str(n)] for a non-negative and for an arbitrary [int] *)
Definition str_nat (n : nat) : string := NilZero.string_of_uint (Nat.to_uint n).
Definition str_Z (z : Z) : string := NilZero.string_of_int (Z.to_int z).

Definition is_digit (c : ascii) : bool :=
  (48 <=? nat_of_ascii c) && (nat_of_ascii c <=? 57).

(** [int(s)] on a run of ASCII digits, most significant first *)
Fixpoint int_digits (acc : nat) (s : string) : nat :=
  match s with
  | EmptyString => acc
  | String c r => int_digits (10 * acc + (nat_of_ascii c - 48)) r
  end.

End Py.

(* ===================================================================== *)
(** * Exceptions                                                          *)
(* ===================================================================== *)

(** The exception classes the module distinguishes.  [GuardTimeout] is the
    class [_GuardTimeout] that [TimeoutGuard._get_timeout_exception_type]
    derives from [JailTimeout]; [OtherValueError] and [OtherTypeError] are
    classes derived from [ValueError] and [TypeError] (as
    [UnicodeEncodeError]); [OtherException] is any other subclass of
    [Exception] and [OtherBaseException] a [BaseException] outside
    [Exception] ([SystemExit], [KeyboardInterrupt], [GeneratorExit]). *)
Inductive exc_class :=
| SyntaxError | NameError | TypeError | ValueError
| JailTimeout | GuardTimeout | JailViolation
| OtherValueError (name : string)
| OtherTypeError (name : string)
| OtherException (name : string)
| OtherBaseException (name : string).

#[global] Instance exc_class_eq_dec : EqDecision exc_class.
Proof. solve_decision. Defined.

(** [cls.__name__]; the guard overwrites the name of its subclass. *)
Definition class_name (c : exc_class) : string :=
  match c with
  | SyntaxError => "SyntaxError" | NameError => "NameError"
  | TypeError => "TypeError" | ValueError => "ValueError"
  | JailTimeout => "JailTimeout" | GuardTimeout => "JailTimeout"
  | JailViolation => "JailViolation"
  | OtherValueError n => n | OtherTypeError n => n
  | OtherException n => n | OtherBaseException n => n
  end.

(** [issubclass(cls, JailTimeout)], [issubclass(cls, (TypeError, ValueError))]
    and [issubclass(cls, Exception)] *)
Definition is_JailTimeout (c : exc_class) : bool :=
  match c with JailTimeout | GuardTimeout => true | _ => false end.

Definition is_TypeError_or_ValueError (c : exc_class) : bool :=
  match c with
  | TypeError | ValueError | OtherValueError _ | OtherTypeError _ => true
  | _ => false
  end.

Definition is_Exception (c : exc_class) : bool :=
  match c with OtherBaseException _ => false | _ => true end.

(** An exception instance, by its class and by what [str(exc)] does.
    [Exn c s] is an instance of [c] whose [str] returns the text [s];
    [Unprintable c e] is an instance of [c] whose [str] raises [e] instead
    (a [RecursionError] for an argument nested too deep, or whatever a
    [__str__] written by the snippet raises). *)
Inductive exn :=
| Exn (c : exc_class) (text : string)
| Unprintable (c : exc_class) (raised : exn).

(** [type(exc)] *)
Definition exc_type (e : exn) : exc_class :=
  match e with Exn c _ | Unprintable c _ => c end.

(** [str(exc)]: the text, or the exception that [__str__] raises. *)
Definition py_str (e : exn) : string + exn :=
  match e with
  | Exn _ text => inl text
  | Unprintable _ raised => inr raised
  end.

(** The text of [str(exc)] when it returns one (the empty text
    otherwise). *)
Definition exc_str (e : exn) : string :=
  match py_str e with inl text => text | inr _ => EmptyString end.

(** The attributes of a [JailViolation] instance. *)
Record JailViolationObj := {
  v_message : string;
  v_keywords : list string;
  v_banner : option string;
  v_fake_flag_dropped : bool;
  v_log_entry : string;
  v_payload_excerpt : option string
}.

(** [JailViolation.__init__]: [self.log_entry = log_entry or message] *)
Definition JailViolation_init (message : string) (keywords : list string)
    (banner : option string) (fake_flag_dropped : bool)
    (log_entry : option string) (payload_excerpt : option string) : JailViolationObj :=
  {| v_message := message;
     v_keywords := keywords;
     v_banner := banner;
     v_fake_flag_dropped := fake_flag_dropped;
     v_log_entry := match log_entry with
                    | Some l => if Py.nonempty l then l else message
                    | None => message
                    end;
     v_payload_excerpt := payload_excerpt |}.

(** What a call raises: an ordinary exception or a [JailViolation]. *)
Inductive raised :=
| RaisedExn (e : exn)
| RaisedViolation (v : JailViolationObj).

(* ===================================================================== *)
(** * Values handed to the escalation hook and behaviour of a snippet     *)
(* ===================================================================== *)

(** A Python [float], as far as [int()] looks at it: a finite value
    [num / den], a NaN or an infinity. *)
Inductive pyfloat :=
| FFinite (num : Z) (den : positive)
| FNan
| FInf.

(** What [int(item)] does. *)
Inductive int_outcome :=
| IntOk (z : Z)
| IntRaises (e : exn).

(** An element of an iterable payload.  [VObj r] is any other object (a
    [str], an instance with [__int__] or [__index__]), given by the outcome
    [r] of [int()] on it. *)
Inductive pyobj :=
| VInt (z : Z)
| VBool (b : bool)
| VFloat (f : pyfloat)
| VNone
| VObj (r : int_outcome).

(** The first argument of the hook: a [str], a [bytes] or [bytearray], a
    (finite) iterable, or an object that [iter()] refuses. *)
Inductive payload :=
| PStr (s : string)
| PBytes (b : list byte)
| PIter (items : list pyobj)
| PNotIterable.

(** What a call made by the snippet gives back to it: a returned text, an
    exception (which the snippet may catch), or [NotHook] when the name is
    bound to something other than the escalation hook, whose call the model
    leaves to the snippet's own continuation. *)
Inductive call_result :=
| Returned (text : string)
| Failed (e : exn)
| NotHook.

(** The behaviour of one run of a compiled snippet under [exec], as a tree
    of the interactions the jail can observe:
    - [Ret]: the snippet runs off its end;
    - [Throw e]: the exception [e] leaves the snippet;
    - [Out s k], [Err s k]: [s] is written to [sys.stdout], [sys.stderr];
    - [Call f args enc k]: the snippet calls what the name [f] is bound to in
      the namespace it was given, with the positional arguments [args] and,
      when [enc] is [Some e], the keyword argument [encoding=e];
    - [Fire k]: the watchdog timer of the guard fires at this point of the
      run; [k (Some e)] is what the snippet does when the timeout [e] is
      raised in its thread (let it through, or catch it and go on), [k None]
      what it does when nothing is raised in its thread;
    - [Tamper f k]: the snippet changes the escalation queue itself, from
      [q] to [f q].  The list is a closure cell of the function bound to
      [vm_escape], and the filter does not keep a snippet from reaching it,
      so that a snippet can append payloads that were never checked, or
      remove some;
    - [Spin]: the snippet never gives control back.

    The snippet is taken to leave the jail object alone, which is a cell of
    the same closure: it calls none of its methods and assigns none of its
    attributes. *)
Inductive prog :=
| Ret
| Throw (e : exn)
| Out (s : string) (k : prog)
| Err (s : string) (k : prog)
| Call (f : string) (args : list payload) (enc : option string) (k : call_result -> prog)
| Fire (k : option exn -> prog)
| Tamper (f : list (list byte) -> list (list byte)) (k : prog)
| Spin.

(** How a guarded region, and [exec] in it, ends. *)
Inductive completion :=
| Normal
| Exc (e : exn)
| Hang.

(** What a worker process does with one payload ([subprocess.Popen] and
    [communicate] with the timeout of 6.0 seconds), outputs already decoded
    with [decode("utf-8", "replace")]. *)
Inductive proc_outcome :=
| Exited (out err : string) (returncode : Z)
| TimedOut (out err : string) (returncode : Z)
| SpawnFileNotFound (exc_text : string)
| SpawnFailed (exc_text : string) (exc_text_decoded : string).

(** ** The parameters of the model *)
Record pyenv := {
  (** successive readings of [time.monotonic()] and of
      [time.strftime("%Y-%m-%d %H:%M:%S", time.gmtime())] *)
  monotonic : nat -> Q;
  strftime : nat -> string;
  (** the index [random.choice] draws in a list of the given length *)
  randbelow : nat -> nat;
  (** [repr(s)], [textwrap.shorten(s, width=120, placeholder=" ...")] and
      the format [f"{x:.3f}"] *)
  repr : string -> string;
  shorten : string -> string;
  fmt3 : Q -> string;
  (** [s.encode(name)]: [None] when the codec registry raises
      [LookupError], otherwise the encoder, which gives the bytes or the
      exception it raises *)
  codec : string -> option (string -> list byte + exn);
  (** [compile(code, "<pyjail>", "exec")], and the run of the code object *)
  compile : string -> prog + exn;
  (** [threading.get_ident()] *)
  get_ident : nat;
  (** [PyThreadState_SetAsyncExc]: [None] when [ctypes.pythonapi] lacks
      it, otherwise the number of thread states it reports modified *)
  set_async_exc : option Z;
  (** the worker run on the [n]-th payload of a call *)
  worker : nat -> list byte -> proc_outcome
}.

(* ===================================================================== *)
(** * Timeout guard                                                       *)
(* ===================================================================== *)

(** A [threading.Timer]: started and waiting, or with its function run. *)
Inductive Timer := TimerWaiting | TimerFired.

(** The classes [Type[JailTimeout]] ranges over: [JailTimeout] itself and
    the class the guard derives from it. *)
Inductive timeout_class := JailTimeoutClass | GuardTimeoutClass.

Definition class_of_timeout (t : timeout_class) : exc_class :=
  match t with
  | JailTimeoutClass => JailTimeout
  | GuardTimeoutClass => GuardTimeout
  end.

Record TimeoutGuard := {
  seconds : Q;
  label : string;
  _enabled : bool;
  _expired : bool;
  _timer : option Timer;
  _target_thread_id : option nat;
  _timeout_exc_type : option timeout_class
}.

(** [x > 0] on the budget *)
Definition Qpositive (x : Q) : bool := negb (Qle_bool x 0).

(** Construction: the dataclass defaults and [__post_init__]. *)
Definition TimeoutGuard_init (seconds : Q) (label : string) : TimeoutGuard :=
  {| seconds := seconds; label := label;
     _enabled := Qpositive seconds;
     _expired := false;
     _timer := None;
     _target_thread_id := None;
     _timeout_exc_type := None |}.

Section Guard.
Variable E : pyenv.

Definition __enter__ (g : TimeoutGuard) : TimeoutGuard :=
  if negb (_enabled g) then g
  else {| seconds := seconds g; label := label g;
          _enabled := _enabled g;
          _expired := false;
          _timer := Some TimerWaiting;
          _target_thread_id := Some (get_ident E);
          _timeout_exc_type := _timeout_exc_type g |}.

(** [_get_timeout_exception_type]: the class is made once and cached. *)
Definition _get_timeout_exception_type (g : TimeoutGuard) : TimeoutGuard * timeout_class :=
  match _timeout_exc_type g with
  | Some c => (g, c)
  | None =>
      ({| seconds := seconds g; label := label g;
          _enabled := _enabled g; _expired := _expired g;
          _timer := _timer g;
          _target_thread_id := _target_thread_id g;
          _timeout_exc_type := Some GuardTimeoutClass |}, GuardTimeoutClass)
  end.

(** An instance of the guard's exception class: [_GuardTimeout()] carries
    the message built from the label. *)
Definition guard_timeout_exn (g : TimeoutGuard) (c : timeout_class) : exn :=
  Exn (class_of_timeout c) ("time budget exceeded for " +:+ repr E (label g)).

(** [_raise_in_target_thread]: [true] when the exception was set in the
    target thread, [false] when the method raised in the timer's thread
    instead. *)
Definition _raise_in_target_thread (g : TimeoutGuard) : bool :=
  match _target_thread_id g with
  | None => false
  | Some _ =>
      match set_async_exc E with
      | None => false
      | Some result =>
          if (result =? 0)%Z then false
          else if (1 <? result)%Z then false
          else true
      end
  end.

(** [_timeout_triggered], the function of the timer.  Whatever it raises
    is raised in the timer's own thread; the second component tells
    whether the exception reached the guarded thread. *)
Definition _timeout_triggered (g : TimeoutGuard) : TimeoutGuard * option exn :=
  if negb (_enabled g) || _expired g then (g, None)
  else
    let g1 := {| seconds := seconds g; label := label g;
                 _enabled := _enabled g; _expired := true;
                 _timer := match _timer g with Some _ => Some TimerFired | None => None end;
                 _target_thread_id := _target_thread_id g;
                 _timeout_exc_type := _timeout_exc_type g |} in
    let '(g2, c) := _get_timeout_exception_type g1 in
    if _raise_in_target_thread g2 then (g2, Some (guard_timeout_exn g2 c))
    else (g2, None).

(** What [__exit__] does: it raises, or returns [None] or [False]. *)
Inductive exit_result :=
| ExitRaises (e : exn)
| ExitReturns (r : option bool).

Definition __exit__ (g : TimeoutGuard) (exc : option exn) : TimeoutGuard * exit_result :=
  if negb (_enabled g) then (g, ExitReturns None)
  else
    let g1 := {| seconds := seconds g; label := label g;
                 _enabled := _enabled g; _expired := _expired g;
                 _timer := None;
                 _target_thread_id := None;
                 _timeout_exc_type := _timeout_exc_type g |} in
    match _expired g1, exc with
    | true, None =>
        let '(g2, c) := _get_timeout_exception_type g1 in
        (g2, ExitRaises (guard_timeout_exn g2 c))
    | _, Some e =>
        if is_JailTimeout (exc_type e) then (g1, ExitReturns (Some false))
        else (g1, ExitReturns None)
    | _, None => (g1, ExitReturns None)
    end.

(** Leaving a [with] block whose body ended in [body]: an exception of
    [__exit__] replaces the body's, a true return value swallows it. *)
Definition leave_with (g : TimeoutGuard) (body : completion) : TimeoutGuard * completion :=
  match body with
  | Hang => (g, Hang)
  | Normal =>
      match __exit__ g None with
      | (g', ExitRaises t) => (g', Exc t)
      | (g', ExitReturns _) => (g', Normal)
      end
  | Exc e =>
      match __exit__ g (Some e) with
      | (g', ExitRaises t) => (g', Exc t)
      | (g', ExitReturns (Some true)) => (g', Normal)
      | (g', ExitReturns _) => (g', Exc e)
      end
  end.

End Guard.

(* ===================================================================== *)
(** * ExecutionResult and the PythonJail class                            *)
(* ===================================================================== *)

(** One entry of [vm_sessions]: the dictionary [_launch_vm_payloads] builds
    for a payload. *)
Record vm_session := {
  s_stdout : string;
  s_stderr : string;
  s_returncode : option Z;
  s_duration : Q;
  s_error : option string
}.

Record ExecutionResult := {
  stdout : string;
  stderr : string;
  error : option string;
  duration : Q;
  banned_keywords_hit : list string;   (* the field [banned_keywords] *)
  fake_flag_dropped : bool;
  banner : option string;
  vm_sessions : list vm_session
}.

Definition DEFAULT_TIMEOUT : Q := 5 # 2.
Definition VM_PAYLOAD_LIMIT : nat := 4096.

Definition DEFAULT_BANNED_KEYWORDS : list string :=
  [ "import"; "from"; "__import__"; "eval"; "exec("; "open("; "compile";
    "globals"; "locals"; "vars"; "sys"; "os"; "subprocess"; "builtins";
    "__class__"; "__subclasses__"; "inspect"; "mmap"; "socket"; "thread";
    "multiprocessing"; "signal"; "ctypes"; "resource"; "memoryview";
    "setattr"; "getattr("; "delattr"; "lambda *"; "lambda **"; "input(" ].

Definition KEYWORD_HONEYPOTS : gmap string string :=
  list_to_map
    [ ("import", "Nice try. Imports are in the other containment wing.");
      ("os", "Operating system access? In this economy?");
      ("sys", "sys is currently out for coffee. Try later. Or never.");
      ("open", "The only thing opening here is a ticket to Security.");
      ("subprocess", "No subprocesses. The main process barely trusts you.");
      ("ctypes", "We saw what you did with ctypes last time. Denied.");
      ("socket", "Networking requests require a 700-page requisition form.") ].

(** [ERROR_SASS.get(cls)]: the dictionary is keyed by the class itself, so a
    derived class finds nothing. *)
Definition ERROR_SASS (c : exc_class) : option string :=
  match c with
  | SyntaxError => Some "The parser cried a little. Maybe check your indentation?"
  | NameError => Some "Undefined names are the ghosts of forgotten imports."
  | TypeError => Some "TypeError: because Python cares deeply about vibes."
  | ValueError => Some "ValueError suggests your values need therapy."
  | JailTimeout => Some "Time dilation detected. The snippet was put out to pasture."
  | JailViolation => Some "That stunt is logged, catalogued, and gently mocked."
  | _ => None
  end.

(** The objects bound in [SAFE_BUILTINS]: a builtin of Python, or one of
    the two decoys of the module. *)
Inductive builtin_obj :=
| PyBuiltin (name : string)
| pyjail_help
| pyjail_dir.

Definition SAFE_BUILTINS : gmap string builtin_obj :=
  list_to_map
    (map (fun n => (n, PyBuiltin n))
       [ "abs"; "all"; "any"; "bool"; "chr"; "divmod"; "enumerate"; "filter";
         "float"; "format"; "hash"; "hex"; "int"; "isinstance"; "issubclass";
         "iter"; "len"; "list"; "map"; "max"; "min"; "next"; "oct"; "ord";
         "pow"; "print"; "range"; "repr"; "reversed"; "round"; "sorted";
         "str"; "sum"; "tuple"; "zip" ]
     ++ [ ("help", pyjail_help); ("dir", pyjail_dir) ]).

(** [sorted(set(l))]: [insert_sorted] keeps a strictly increasing list. *)
Fixpoint insert_sorted (k : string) (l : list string) : list string :=
  match l with
  | [] => [k]
  | x :: r =>
      match String.compare k x with
      | Lt => k :: l
      | Eq => l
      | Gt => x :: insert_sorted k r
      end
  end.

Definition sorted_set (l : list string) : list string :=
  foldr insert_sorted [] l.

(** The instance: its configuration and the attributes the methods
    update. *)
Record PythonJail := {
  project_root : string;
  log_path : string;
  fake_flag_dir : string;
  fake_flag_path : string;
  fake_flag_catalog_path : string;
  timeout_seconds : Q;
  _log_error_reported : bool;
  _fake_flag_error_reported : bool;
  banned_keywords : list string
}.

(** [PythonJail.__init__]; [banned] is the optional argument
    [banned_keywords], an empty one counting as absent.  The attributes
    only: what [_ensure_paths], its last statement, does to the files is
    [_ensure_paths] below. *)
Definition PythonJail_init (project_root : string) (banned : option (list string))
    (timeout_seconds : Q) : PythonJail :=
  let provided_keywords :=
    match banned with
    | Some (k :: r) => k :: r
    | _ => []
    end in
  {| project_root := project_root;
     log_path := project_root +:+ "/logs/bait.log";
     fake_flag_dir := project_root +:+ "/data/fake_flags";
     fake_flag_path := project_root +:+ "/data/fake_flags/fake-flag2.txt";
     fake_flag_catalog_path := project_root +:+ "/data/fake-flag-list.txt";
     timeout_seconds := timeout_seconds;
     _log_error_reported := false;
     _fake_flag_error_reported := false;
     banned_keywords := sorted_set (DEFAULT_BANNED_KEYWORDS ++ provided_keywords) |}.

(** ** Keyword filter *)

(** [check_banned_keywords]: the loop appends to [matches]. *)
Definition check_banned_keywords (self : PythonJail) (code : string) : list string :=
  let normalized := Py.lower code in
  foldl (fun matches keyword =>
           if Py.contains (Py.lower keyword) normalized
           then matches ++ [keyword] else matches)
        [] (banned_keywords self).

(** ** Payload normaliser and escalation hook *)

Definition py_int (v : pyobj) : int_outcome :=
  match v with
  | VInt z => IntOk z
  | VBool b => IntOk (if b then 1 else 0)%Z
  | VFloat (FFinite n d) => IntOk (Z.quot n (Zpos d))
  | VFloat FNan => IntRaises (Exn ValueError "cannot convert float NaN to integer")
  | VFloat FInf =>
      IntRaises (Exn (OtherException "OverflowError") "cannot convert float infinity to integer")
  | VNone =>
      IntRaises (Exn TypeError
        "int() argument must be a string, a bytes-like object or a real number, not 'NoneType'")
  | VObj r => r
  end.

(** [bytearray.append(value)] for [0 <= value <= 255] *)
Definition byte_of_Z (z : Z) : byte :=
  match Byte.of_N (Z.to_N z) with
  | Some b => b
  | None => x00
  end.

(** The loop over the items of an iterable payload. *)
Fixpoint normalise_items (items : list pyobj) (buffer : list byte) : list byte + exn :=
  match items with
  | [] => inl buffer
  | item :: rest =>
      match py_int item with
      | IntRaises e =>
          if is_TypeError_or_ValueError (exc_type e)
          then inr (Exn ValueError "Iterable payload elements must be integers")
          else inr e
      | IntOk value =>
          if negb ((0 <=? value)%Z && (value <=? 255)%Z)
          then inr (Exn ValueError "Iterable payload values must be within 0-255")
          else normalise_items rest (buffer ++ [byte_of_Z value])
      end
  end.

Section Hook.
Variable E : pyenv.

Definition _normalise_vm_payload (p : payload) (encoding : string) : list byte + exn :=
  let data :=
    match p with
    | PStr s =>
        match codec E encoding with
        | None => inr (Exn ValueError ("Unsupported encoding " +:+ repr E encoding))
        | Some encode => encode s
        end
    | PBytes b => inl b
    | PNotIterable =>
        inr (Exn TypeError "vm_escape expects str, bytes, or iterable of integers")
    | PIter items => normalise_items items []
    end in
  match data with
  | inr e => inr e
  | inl data =>
      match data with
      | [] => inr (Exn ValueError
                "vm_escape payload must not be empty (hint: ever tried fuzzing directories?)")
      | _ =>
          if VM_PAYLOAD_LIMIT <? length data
          then inr (Exn ValueError
                      ("vm_escape payload exceeds " +:+ Py.str_nat VM_PAYLOAD_LIMIT +:+ " bytes"))
          else inl data
      end
  end.

(** The closure [vm_escape(payload, *, encoding="latin-1")] over the queue
    of the call: the positional arguments, the keyword [encoding] when it
    is given, and the queue before; it gives the outcome and the queue
    after. *)
Definition vm_escape (args : list payload) (encoding : option string)
    (vm_queue : list (list byte)) : call_result * list (list byte) :=
  match args with
  | [] => (Failed (Exn TypeError
             "vm_escape() missing 1 required positional argument: 'payload'"), vm_queue)
  | [p] =>
      match _normalise_vm_payload p (default "latin-1" encoding) with
      | inr e => (Failed e, vm_queue)
      | inl data =>
          (Returned ("tiny_vmmgr payload queued (" +:+ Py.str_nat (length data) +:+ " bytes)."),
           vm_queue ++ [data])
      end
  | _ => (Failed (Exn TypeError
            ("vm_escape() takes 1 positional argument but "
             +:+ Py.str_nat (length args) +:+ " were given")), vm_queue)
  end.

End Hook.

(** ** The namespace handed to [exec] *)

(** The objects bound in the globals: the dictionary of builtins, a text,
    the two closures, and the [Locker] around a copy of the mapping. *)
Inductive global_obj :=
| GBuiltins (d : gmap string builtin_obj)
| GStr (s : string)
| GHint
| GVmEscape.

Inductive namespace_obj :=
| NObj (o : global_obj)
| NLocker (_mapping : gmap string global_obj).

Definition _build_exec_environment : gmap string namespace_obj :=
  let safe_globals : gmap string global_obj :=
    <["vm_escape" := GVmEscape]>
      (<["hint" := GHint]>
        (<["__doc__" := GStr "PythonJail user namespace. Abandon hope, ye who import."]>
          (<["__name__" := GStr "__isol8r_pyjail__"]>
            (<["__builtins__" := GBuiltins SAFE_BUILTINS]> ∅)))) in
  <["__globals__" := NLocker safe_globals]> (NObj <$> safe_globals).

(** What a name of the snippet resolves to at the start of the run: the
    globals, then the builtins (the locals are empty). *)
Inductive resolved :=
| RGlobal (o : namespace_obj)
| RBuiltin (b : builtin_obj).

Definition resolve_name (globals : gmap string namespace_obj) (name : string) : option resolved :=
  match globals !! name with
  | Some o => Some (RGlobal o)
  | None =>
      match globals !! "__builtins__" with
      | Some (NObj (GBuiltins d)) => RBuiltin <$> (d !! name)
      | _ => None
      end
  end.

(* ===================================================================== *)
(** * State outside the call and the state monad                          *)
(* ===================================================================== *)

(** An entry of the decoy directory. *)
Inductive node :=
| File (content : string)
| Directory.

(** The calls of [self._logger.warning], by the place that makes them. *)
Inductive warning :=
| WarnBaitLog
| WarnCatalogRead
| WarnCatalogEmpty
| WarnEnumerate
| WarnRefresh (target : string).

(** What the file system does with [logs/bait.log]: the file can be opened
    for appending; [open] raises [OSError]; or the directory [logs] itself
    cannot be made ([mkdir(parents=True, exist_ok=True)] raises the
    subclass [name] of [OSError]), in which case [open] raises too. *)
Inductive log_access :=
| LogWritable
| LogUnwritable
| LogDirUnavailable (name text : string).

(** What the file system does with the directory [data/fake_flags]: it is
    there, or [mkdir(parents=True, exist_ok=True)] makes it, and
    [iterdir()] lists it; it is there and [iterdir()] raises [OSError]; or
    [mkdir] raises the subclass [name] of [OSError] (the path is a file, or
    the directory is missing and cannot be made). *)
Inductive dir_access :=
| DirListable
| DirUnlistable
| DirUnavailable (name text : string).

(** What [read_text(encoding="utf-8")] does on [data/fake-flag-list.txt]:
    it raises [OSError]; it returns a text, given by its [splitlines()]; or
    the bytes of the file are not valid UTF-8 and it raises
    [UnicodeDecodeError], which is a [ValueError]. *)
Inductive catalog_read :=
| CatalogOSError
| CatalogText (lines : list string)
| CatalogUnicodeError (text : string).

(** The files, processes and counters the jail works on.  [bait_log] holds
    the texts written to [logs/bait.log], one for each [write], each
    followed in the file by a line feed (a text with line feeds of its own
    makes several lines of the file); [flag_dir] the entries of
    [data/fake_flags], by name; [popen_calls] the payloads for which
    [subprocess.Popen] was called, in order.  [flag_dir_writable] tells
    whether a file can be created in the decoy directory. *)
Record world := {
  bait_log : list string;
  bait_log_access : log_access;
  flag_dir : gmap string node;
  flag_dir_access : dir_access;
  flag_dir_writable : bool;
  catalog_file : catalog_read;
  binary_exists : bool;
  popen_calls : list (list byte);
  warnings : list warning;
  monotonic_reads : nat;
  strftime_reads : nat;
  random_draws : nat
}.

(** Whether appending to the log succeeds, and whether the decoy directory
    can be listed. *)
Definition bait_log_writable (w : world) : bool :=
  match bait_log_access w with LogWritable => true | _ => false end.

Definition flag_dir_listable (w : world) : bool :=
  match flag_dir_access w with DirListable => true | _ => false end.

(** The lines of the catalogue, when it can be read and decoded. *)
Definition catalog (w : world) : option (list string) :=
  match catalog_file w with CatalogText lines => Some lines | _ => None end.


Definition mkdir_fake_flag_dir (w : world) : option exn :=
  match flag_dir_access w with
  | DirUnavailable name text => Some (Exn (OtherException name) text)
  | _ => None
  end.


Record state := { self : PythonJail; os : world }.

Definition set_bait_log (l : list string) (w : world) : world :=
  {| bait_log := l; bait_log_access := bait_log_access w;
     flag_dir := flag_dir w; flag_dir_access := flag_dir_access w;
     flag_dir_writable := flag_dir_writable w; catalog_file := catalog_file w;
     binary_exists := binary_exists w; popen_calls := popen_calls w;
     warnings := warnings w; monotonic_reads := monotonic_reads w;
     strftime_reads := strftime_reads w; random_draws := random_draws w |}.

Definition set_flag_dir (d : gmap string node) (w : world) : world :=
  {| bait_log := bait_log w; bait_log_access := bait_log_access w;
     flag_dir := d; flag_dir_access := flag_dir_access w;
     flag_dir_writable := flag_dir_writable w; catalog_file := catalog_file w;
     binary_exists := binary_exists w; popen_calls := popen_calls w;
     warnings := warnings w; monotonic_reads := monotonic_reads w;
     strftime_reads := strftime_reads w; random_draws := random_draws w |}.

Definition set_popen_calls (l : list (list byte)) (w : world) : world :=
  {| bait_log := bait_log w; bait_log_access := bait_log_access w;
     flag_dir := flag_dir w; flag_dir_access := flag_dir_access w;
     flag_dir_writable := flag_dir_writable w; catalog_file := catalog_file w;
     binary_exists := binary_exists w; popen_calls := l;
     warnings := warnings w; monotonic_reads := monotonic_reads w;
     strftime_reads := strftime_reads w; random_draws := random_draws w |}.

Definition set_warnings (l : list warning) (w : world) : world :=
  {| bait_log := bait_log w; bait_log_access := bait_log_access w;
     flag_dir := flag_dir w; flag_dir_access := flag_dir_access w;
     flag_dir_writable := flag_dir_writable w; catalog_file := catalog_file w;
     binary_exists := binary_exists w; popen_calls := popen_calls w;
     warnings := l; monotonic_reads := monotonic_reads w;
     strftime_reads := strftime_reads w; random_draws := random_draws w |}.

Definition set_counters (m s r : nat) (w : world) : world :=
  {| bait_log := bait_log w; bait_log_access := bait_log_access w;
     flag_dir := flag_dir w; flag_dir_access := flag_dir_access w;
     flag_dir_writable := flag_dir_writable w; catalog_file := catalog_file w;
     binary_exists := binary_exists w; popen_calls := popen_calls w;
     warnings := warnings w; monotonic_reads := m; strftime_reads := s;
     random_draws := r |}.

Definition set_fake_flag_path (p : string) (j : PythonJail) : PythonJail :=
  {| project_root := project_root j; log_path := log_path j;
     fake_flag_dir := fake_flag_dir j; fake_flag_path := p;
     fake_flag_catalog_path := fake_flag_catalog_path j;
     timeout_seconds := timeout_seconds j;
     _log_error_reported := _log_error_reported j;
     _fake_flag_error_reported := _fake_flag_error_reported j;
     banned_keywords := banned_keywords j |}.

Definition set_error_reported (log_reported flag_reported : bool) (j : PythonJail) : PythonJail :=
  {| project_root := project_root j; log_path := log_path j;
     fake_flag_dir := fake_flag_dir j; fake_flag_path := fake_flag_path j;
     fake_flag_catalog_path := fake_flag_catalog_path j;
     timeout_seconds := timeout_seconds j;
     _log_error_reported := log_reported;
     _fake_flag_error_reported := flag_reported;
     banned_keywords := banned_keywords j |}.

(** The state monad of the methods. *)
Definition M (A : Type) : Type := state -> A * state.

Definition ret {A} (a : A) : M A := fun s => (a, s).

Definition bind {A B} (m : M A) (k : A -> M B) : M B :=
  fun s => let '(a, s') := m s in k a s'.

Notation "'do' x <- m ; k" := (bind m (fun x => k))
  (at level 10, x name, m at level 100, k at level 200).
Notation "m ;; k" := (bind m (fun _ => k))
  (at level 100, k at level 200, right associativity).

Definition get_self : M PythonJail := fun s => (self s, s).
Definition get_os : M world := fun s => (os s, s).
Definition modify_self (f : PythonJail -> PythonJail) : M unit :=
  fun s => (tt, {| self := f (self s); os := os s |}).
Definition modify_os (f : world -> world) : M unit :=
  fun s => (tt, {| self := self s; os := f (os s) |}).

Definition warn (x : warning) : M unit :=
  modify_os (fun w => set_warnings (warnings w ++ [x]) w).

(** [if not self._log_error_reported: warning(...); self._log_error_reported = True] *)
Definition warn_log_once (x : warning) : M unit :=
  do j <- get_self;
  if _log_error_reported j then ret tt
  else warn x ;; modify_self (set_error_reported true (_fake_flag_error_reported j)).

(** the same on [self._fake_flag_error_reported] *)
Definition warn_flag_once (x : warning) : M unit :=
  do j <- get_self;
  if _fake_flag_error_reported j then ret tt
  else warn x ;; modify_self (set_error_reported (_log_error_reported j) true).

Section Jail.
Variable E : pyenv.

(** [time.monotonic()] *)
Definition read_monotonic : M Q := fun s =>
  let w := os s in
  (monotonic E (monotonic_reads w),
   {| self := self s;
      os := set_counters (S (monotonic_reads w)) (strftime_reads w) (random_draws w) w |}).

(** [time.strftime("%Y-%m-%d %H:%M:%S", time.gmtime())] *)
Definition read_strftime : M string := fun s =>
  let w := os s in
  (strftime E (strftime_reads w),
   {| self := self s;
      os := set_counters (monotonic_reads w) (S (strftime_reads w)) (random_draws w) w |}).

(** [random.choice(candidates)] on a non-empty list *)
Definition random_choice (candidates : list string) : M string := fun s =>
  let w := os s in
  (nth (randbelow E (random_draws w) mod length candidates) candidates EmptyString,
   {| self := self s;
      os := set_counters (monotonic_reads w) (strftime_reads w) (S (random_draws w)) w |}).

(** ** Logs *)

(** [log_attempt]: one [write] of the entry and a line feed.  [strip]
    trims the ends of the message only, so that an entry holds the line
    feeds the message has inside. *)
Definition log_attempt (event_type message : string) : M unit :=
  do timestamp <- read_strftime;
  let line := "[" +:+ Py.upper event_type +:+ "] " +:+ Py.strip message
              +:+ " at " +:+ timestamp in
  do w <- get_os;
  if bait_log_writable w
  then modify_os (fun w => set_bait_log (bait_log w ++ [line]) w)
  else warn_log_once WarnBaitLog.

(** ** Honeypots *)

Definition fallback_flag : string := "flag{stop_using_imports_bro}".

(** [_choose_random_fake_flag]: [except OSError] covers the read of the
    catalogue, and lets the [UnicodeDecodeError] of [read_text] through. *)
Definition _choose_random_fake_flag : M (string + exn) :=
  do w <- get_os;
  match catalog_file w with
  | CatalogOSError => warn_flag_once WarnCatalogRead ;; ret (inl fallback_flag)
  | CatalogUnicodeError text =>
      ret (inr (Exn (OtherValueError "UnicodeDecodeError") text))
  | CatalogText lines =>
      let candidates := List.filter Py.nonempty (map Py.strip lines) in
      match candidates with
      | [] => warn_flag_once WarnCatalogEmpty ;; ret (inl fallback_flag)
      | _ => do choice <- random_choice candidates; ret (inl choice)
      end
  end.

(** [_FAKE_FLAG_NAME_PATTERN.match(name)], the pattern being
    [fake[-_]?flag[-_]?(\d+)\.txt$] with [re.IGNORECASE]: the text of
    group 1 when the name matches.  [$] also matches before a final
    newline. *)
Fixpoint strip_prefix_ci (lit s : string) : option string :=
  match lit with
  | EmptyString => Some s
  | String a lit' =>
      match s with
      | String c s' =>
          if Ascii.eqb (Py.lower_char c) a then strip_prefix_ci lit' s' else None
      | EmptyString => None
      end
  end.

Definition skip_separator (s : string) : string :=
  match s with
  | String c r => if Ascii.eqb c "-" || Ascii.eqb c "_" then r else s
  | EmptyString => s
  end.

Fixpoint span_digits (s : string) : string * string :=
  match s with
  | String c r =>
      if Py.is_digit c
      then let '(d, rest) := span_digits r in (String c d, rest)
      else (EmptyString, s)
  | EmptyString => (EmptyString, EmptyString)
  end.

Definition fake_flag_name_match (name : string) : option string :=
  match strip_prefix_ci "fake" name with
  | None => None
  | Some r1 =>
      match strip_prefix_ci "flag" (skip_separator r1) with
      | None => None
      | Some r2 =>
          let '(digits, r3) := span_digits (skip_separator r2) in
          if Py.nonempty digits then
            match strip_prefix_ci ".txt" r3 with
            | Some r4 =>
                if String.eqb r4 EmptyString || String.eqb r4 Py.nl
                then Some digits else None
            | None => None
            end
          else None
      end
  end.

(** The loop of [_next_fake_flag_path] over the entries. *)
Definition scan_entry (highest_number : nat) (entry : string * node) : nat :=
  match entry.2 with
  | Directory => highest_number
  | File _ =>
      match fake_flag_name_match entry.1 with
      | None => highest_number
      | Some digits =>
          let number := Py.int_digits 0 digits in
          if highest_number <? number then number else highest_number
      end
  end.

(** [_next_fake_flag_path]; the path [directory / name] is given by its
    last component.  The [mkdir] at the start is outside the [try]: what it
    raises leaves the method. *)
Definition _next_fake_flag_path : M (string + exn) :=
  do w <- get_os;
  match mkdir_fake_flag_dir w with
  | Some e => ret (inr e)
  | None =>
      let highest_number := 1 in
      if negb (flag_dir_listable w)
      then warn_flag_once WarnEnumerate ;; ret (inl "fake-flag2.txt")
      else
        let entries := map_to_list (flag_dir w) in
        let highest_number := foldl scan_entry highest_number entries in
        let next_index := highest_number + 1 in
        ret (inl ("fake-flag" +:+ Py.str_nat next_index +:+ ".txt"))
  end.

(** [target_path.write_text(payload)] raises [OSError] when no file can be
    created in the directory or when the target is a directory. *)
Definition write_text_fails (w : world) (target : string) : bool :=
  negb (flag_dir_writable w) ||
  match flag_dir w !! target with
  | Some Directory => true
  | _ => false
  end.

(** [drop_fake_flag]: [inr e] when one of the two methods it starts with
    raises [e]; only the [OSError] of the write is caught. *)
Definition drop_fake_flag : M (unit + exn) :=
  do payload <- _choose_random_fake_flag;
  match payload with
  | inr e => ret (inr e)
  | inl payload =>
      do target <- _next_fake_flag_path;
      match target with
      | inr e => ret (inr e)
      | inl target =>
          do w <- get_os;
          if write_text_fails w target
          then warn_flag_once (WarnRefresh target) ;; ret (inl tt)
          else
            modify_os (fun w => set_flag_dir (<[target := File payload]> (flag_dir w)) w) ;;
            do j <- get_self;
            modify_self (set_fake_flag_path (fake_flag_dir j +:+ "/" +:+ target)) ;;
            ret (inl tt)
      end
  end.

(** ** Analysis *)

Definition _describe_keyword_alert (self : PythonJail) (keyword_hits : list string)
    (code : string) : string :=
  let excerpt := shorten E (Py.replace_nl_space code) in
  let unique_hits := Py.join ", " (sorted_set keyword_hits) in
  "User attempted keywords [" +:+ unique_hits +:+ "] via payload: " +:+ repr E excerpt.

End Jail.

(* ===================================================================== *)
(** * Execution                                                           *)
(* ===================================================================== *)

(** The state of one call while the snippet runs: the two [StringIO]
    captures, the escalation queue and the guard. *)
Record exec_state := {
  stdout_capture : string;
  stderr_capture : string;
  vm_queue : list (list byte);
  guard : TimeoutGuard
}.

(** How [execute_code] ends for its caller. *)
Inductive outcome :=
| Returns (r : ExecutionResult)
| Raises (x : raised)
| Hangs.

Section Execution.
Variable E : pyenv.

(** ** The VM harness *)

Definition binary_path (self : PythonJail) : string :=
  project_root self +:+ "/core/pwnables/tiny_vmmgr".

(** The session synthesised for each payload when the binary is missing. *)
Definition missing_binary_session (message : string) : vm_session :=
  {| s_stdout := EmptyString; s_stderr := message; s_returncode := None;
     s_duration := 0; s_error := Some message |}.

(** [subprocess.Popen(...)] and [proc.communicate(payload, timeout=6.0)] *)
Definition popen_communicate (payload : list byte) : M proc_outcome := fun s =>
  let w := os s in
  (worker E (length (popen_calls w)) payload,
   {| self := self s; os := set_popen_calls (popen_calls w ++ [payload]) w |}).

(** The body of the loop of [_launch_vm_payloads] for one payload. *)
Definition launch_one (payload : list byte) : M vm_session :=
  do start <- read_monotonic E;
  do o <- popen_communicate payload;
  do now <- read_monotonic E;
  let duration := (now - start)%Q in
  let nbytes := Py.str_nat (length payload) in
  match o with
  | Exited out err returncode =>
      let error_message :=
        if (returncode =? 0)%Z then None
        else Some ("tiny_vmmgr exited with code " +:+ Py.str_Z returncode) in
      let log_level := match error_message with None => "INFO" | Some _ => "WARN" end in
      log_attempt E log_level
        ("tiny_vmmgr run rc=" +:+ Py.str_Z returncode +:+ " bytes=" +:+ nbytes
         +:+ " duration=" +:+ fmt3 E duration +:+ "s") ;;
      ret {| s_stdout := out; s_stderr := err; s_returncode := Some returncode;
             s_duration := duration; s_error := error_message |}
  | TimedOut out err returncode =>
      let error_message := "tiny_vmmgr timed out while executing payload." in
      log_attempt E "WARN"
        ("tiny_vmmgr timeout after " +:+ fmt3 E duration +:+ "s bytes=" +:+ nbytes) ;;
      ret {| s_stdout := out; s_stderr := err; s_returncode := Some returncode;
             s_duration := duration; s_error := Some error_message |}
  | SpawnFileNotFound exc_text =>
      let error_message := "tiny_vmmgr missing: " +:+ exc_text in
      log_attempt E "WARN" error_message ;;
      ret {| s_stdout := EmptyString; s_stderr := EmptyString; s_returncode := None;
             s_duration := duration; s_error := Some error_message |}
  | SpawnFailed exc_text exc_text_decoded =>
      let error_message := "tiny_vmmgr execution failed: " +:+ exc_text in
      log_attempt E "WARN" error_message ;;
      ret {| s_stdout := EmptyString; s_stderr := exc_text_decoded; s_returncode := None;
             s_duration := duration; s_error := Some error_message |}
  end.

Fixpoint launch_all (payloads : list (list byte)) (results : list vm_session)
    : M (list vm_session) :=
  match payloads with
  | [] => ret results
  | payload :: rest =>
      do session <- launch_one payload;
      launch_all rest (results ++ [session])
  end.

Definition _launch_vm_payloads (payloads : list (list byte)) : M (list vm_session) :=
  let results : list vm_session := [] in
  match payloads with
  | [] => ret results
  | _ =>
      do j <- get_self;
      do w <- get_os;
      if negb (binary_exists w) then
        let message := "tiny_vmmgr binary missing at " +:+ binary_path j in
        log_attempt E "WARN" message ;;
        ret (foldl (fun results _ => results ++ [missing_binary_session message])
                   results payloads)
      else launch_all payloads results
  end.

(** ** Running the snippet *)

Definition write_stdout (s : string) (st : exec_state) : exec_state :=
  {| stdout_capture := stdout_capture st +:+ s; stderr_capture := stderr_capture st;
     vm_queue := vm_queue st; guard := guard st |}.

Definition write_stderr (s : string) (st : exec_state) : exec_state :=
  {| stdout_capture := stdout_capture st; stderr_capture := stderr_capture st +:+ s;
     vm_queue := vm_queue st; guard := guard st |}.

Definition set_vm_queue (q : list (list byte)) (st : exec_state) : exec_state :=
  {| stdout_capture := stdout_capture st; stderr_capture := stderr_capture st;
     vm_queue := q; guard := guard st |}.

Definition set_guard (g : TimeoutGuard) (st : exec_state) : exec_state :=
  {| stdout_capture := stdout_capture st; stderr_capture := stderr_capture st;
     vm_queue := vm_queue st; guard := g |}.

(** [exec(compiled, exec_globals, exec_locals)] inside the two redirections:
    the run of the behaviour tree against the namespace and the state of the
    call. *)
Fixpoint run (globals : gmap string namespace_obj) (p : prog) (st : exec_state)
    : exec_state * completion :=
  match p with
  | Ret => (st, Normal)
  | Throw e => (st, Exc e)
  | Spin => (st, Hang)
  | Out s k => run globals k (write_stdout s st)
  | Err s k => run globals k (write_stderr s st)
  | Call f args enc k =>
      match resolve_name globals f with
      | None =>
          run globals (k (Failed (Exn NameError ("name '" +:+ f +:+ "' is not defined")))) st
      | Some (RGlobal (NObj GVmEscape)) =>
          let '(r, q) := vm_escape E args enc (vm_queue st) in
          run globals (k r) (set_vm_queue q st)
      | Some _ => run globals (k NotHook) st
      end
  | Fire k =>
      let '(g, delivered) := _timeout_triggered E (guard st) in
      run globals (k delivered) (set_guard g st)
  | Tamper f k => run globals k (set_vm_queue (f (vm_queue st)) st)
  end.

(** The [with TimeoutGuard(...)] statement around [exec]. *)
Definition guarded_exec (self : PythonJail) (globals : gmap string namespace_obj)
    (p : prog) (st : exec_state) : exec_state * completion :=
  let g := __enter__ E (TimeoutGuard_init (timeout_seconds self) "PythonJail exec") in
  let '(st1, body) := run globals p (set_guard g st) in
  let '(g', c) := leave_with E (guard st1) body in
  (set_guard g' st1, c).

(** ** Aggregation of the harness sessions *)

Definition session_header (idx : nat) (vm_outcome : vm_session) : string :=
  "[tiny_vmmgr #" +:+ Py.str_nat idx +:+ "] returncode="
  +:+ match s_returncode vm_outcome with
      | None => "None"
      | Some rc => Py.str_Z rc
      end
  +:+ " duration=" +:+ fmt3 E (s_duration vm_outcome) +:+ "s".

Definition session_stdout_fragment (idx : nat) (vm_outcome : vm_session) : string :=
  let header := session_header idx vm_outcome in
  let vm_stdout := Py.rstrip (s_stdout vm_outcome) in
  if Py.nonempty vm_stdout
  then header +:+ Py.nl +:+ "stdout:" +:+ Py.nl +:+ vm_stdout
  else header.

Definition session_err_lines (vm_outcome : vm_session) : list string :=
  let vm_stderr := Py.rstrip (s_stderr vm_outcome) in
  (if Py.nonempty vm_stderr then ["stderr:" +:+ Py.nl +:+ vm_stderr] else [])
  ++ match s_error vm_outcome with
     | Some e => if Py.nonempty e then [e] else []
     | None => []
     end.

(** The loop [for idx, vm_outcome in enumerate(vm_results, start=1)] on the
    two lists of fragments. *)
Fixpoint collect_fragments (idx : nat) (vm_results : list vm_session)
    (stdout_fragments stderr_fragments : list string) : list string * list string :=
  match vm_results with
  | [] => (stdout_fragments, stderr_fragments)
  | vm_outcome :: rest =>
      let stdout_fragments := stdout_fragments ++ [session_stdout_fragment idx vm_outcome] in
      let err_lines := session_err_lines vm_outcome in
      let stderr_fragments :=
        match err_lines with
        | [] => stderr_fragments
        | _ => stderr_fragments
               ++ [session_header idx vm_outcome +:+ Py.nl +:+ Py.join Py.nl err_lines]
        end in
      collect_fragments (S idx) rest stdout_fragments stderr_fragments
  end.

Definition aggregate (stdout_value stderr_value : string) (banner : option string)
    (vm_results : list vm_session) : string * string * option string :=
  match vm_results with
  | [] => (stdout_value, stderr_value, banner)
  | _ =>
      let stdout_fragments := if Py.nonempty stdout_value then [stdout_value] else [] in
      let stderr_fragments := if Py.nonempty stderr_value then [stderr_value] else [] in
      let '(stdout_fragments, stderr_fragments) :=
        collect_fragments 1 vm_results stdout_fragments stderr_fragments in
      let sep := Py.nl +:+ Py.nl in
      (Py.join sep (List.filter Py.nonempty stdout_fragments),
       Py.join sep (List.filter Py.nonempty stderr_fragments),
       match banner with
       | Some b => if Py.nonempty b then Some b
                   else Some "PyJail containment pierced: tiny_vmmgr engaged."
       | None => Some "PyJail containment pierced: tiny_vmmgr engaged."
       end)
  end.

Definition flag_store_note : string := "Sorry, this isn't a flag store.".

(** ** [execute_code] *)

Definition legacy_hook_error : exn :=
  Exn NameError
    "name 'legacy_hook' is not defined. Maybe try to 'escape_vm', spell backwards or just guess better?".

(** [sass = self.ERROR_SASS.get(cls); if sass: write(sass + "\n")] followed
    by [write(line + "\n")] on the captured stderr *)
Definition write_sass (c : exc_class) (line : string) (captured : string) : string :=
  captured
  +:+ match ERROR_SASS c with
      | Some sass => if Py.nonempty sass then sass +:+ Py.nl else EmptyString
      | None => EmptyString
      end
  +:+ line +:+ Py.nl.

Definition execute_code (code : string) : M outcome :=
  do start <- read_monotonic E;
  let sanitized_code := Py.rstrip (Py.replace_crlf code) in
  if Py.contains "legacy_hook(" sanitized_code || Py.contains "hook(" sanitized_code
  then ret (Raises (RaisedExn legacy_hook_error))
  else
    do j <- get_self;
    let keyword_hits := check_banned_keywords j sanitized_code in
    let banner : option string := None in
    let fake_flag_dropped := false in
    match keyword_hits with
    | first_hit :: _ =>
        let message := _describe_keyword_alert E j keyword_hits sanitized_code in
        let log_payload :=
          if String.length sanitized_code <=? 160 then sanitized_code
          else String.substring 0 157 sanitized_code +:+ "..." in
        log_attempt E "BAIT" ("User attempted " +:+ repr E log_payload) ;;
        let honeypot_comment :=
          default "Keyword violation detected." (KEYWORD_HONEYPOTS !! first_hit) in
        let honeypot_banner := honeypot_comment +:+ " Fake flag dispensed for archival joy." in
        do dropped <- drop_fake_flag E;
        match dropped with
        | inr exc => ret (Raises (RaisedExn exc))
        | inl _ =>
            ret (Raises (RaisedViolation
                   (JailViolation_init message keyword_hits (Some honeypot_banner) true
                      (Some message) (Some log_payload))))
        end
    | [] =>
        let st0 := {| stdout_capture := EmptyString; stderr_capture := EmptyString;
                      vm_queue := [];
                      guard := TimeoutGuard_init (timeout_seconds j) "PythonJail exec" |} in
        let exec_globals := _build_exec_environment in
        match compile E sanitized_code with
        | inr exc =>
            if is_Exception (exc_type exc) then
              do now <- read_monotonic E;
              let duration := (now - start)%Q in
              (* the message of the log formats [exc]: [str(exc)] comes first *)
              match py_str exc with
              | inr raised => ret (Raises (RaisedExn raised))
              | inl text =>
                  log_attempt E "WARN"
                    ("Compilation failure for payload " +:+ repr E sanitized_code
                     +:+ ": " +:+ text) ;;
                  let human_error := class_name (exc_type exc) +:+ ": " +:+ text in
                  ret (Returns
                         {| stdout := stdout_capture st0;
                            stderr := write_sass (exc_type exc) human_error
                                        (stderr_capture st0);
                            error := Some human_error;
                            duration := duration;
                            banned_keywords_hit := keyword_hits;
                            fake_flag_dropped := fake_flag_dropped;
                            banner := banner;
                            vm_sessions := [] |})
              end
            else ret (Raises (RaisedExn exc))
        | inl compiled =>
            let '(st, c) := guarded_exec j exec_globals compiled st0 in
            match c with
            | Hang => ret Hangs
            | Exc exc =>
                if is_JailTimeout (exc_type exc) then
                  do now <- read_monotonic E;
                  let duration := (now - start)%Q in
                  log_attempt E "WARN"
                    ("Timeout triggered for payload " +:+ repr E sanitized_code) ;;
                  (* the line written to stderr formats [exc] *)
                  match py_str exc with
                  | inr raised => ret (Raises (RaisedExn raised))
                  | inl text =>
                      ret (Returns
                             {| stdout := stdout_capture st;
                                stderr := write_sass JailTimeout
                                            (class_name (exc_type exc) +:+ ": " +:+ text)
                                            (stderr_capture st);
                                error := Some text;
                                duration := duration;
                                banned_keywords_hit := keyword_hits;
                                fake_flag_dropped := fake_flag_dropped;
                                banner := banner;
                                vm_sessions := [] |})
                  end
                else if is_Exception (exc_type exc) then
                  do now <- read_monotonic E;
                  let duration := (now - start)%Q in
                  let error_type := exc_type exc in
                  log_attempt E "WARN"
                    ("Runtime exception " +:+ class_name error_type +:+ " for payload "
                     +:+ repr E sanitized_code) ;;
                  (* the line written to stderr formats [exc] *)
                  match py_str exc with
                  | inr raised => ret (Raises (RaisedExn raised))
                  | inl text =>
                      let human_error := class_name error_type +:+ ": " +:+ text in
                      ret (Returns
                             {| stdout := stdout_capture st;
                                stderr := write_sass error_type human_error
                                            (stderr_capture st);
                                error := Some human_error;
                                duration := duration;
                                banned_keywords_hit := keyword_hits;
                                fake_flag_dropped := fake_flag_dropped;
                                banner := banner;
                                vm_sessions := [] |})
                  end
                else ret (Raises (RaisedExn exc))
            | Normal =>
                do now <- read_monotonic E;
                let duration := (now - start)%Q in
                let stdout_value := stdout_capture st in
                let stderr_value := stderr_capture st in
                do vm_results <- _launch_vm_payloads (vm_queue st);
                let '(stdout_value, stderr_value, banner) :=
                  aggregate stdout_value stderr_value banner vm_results in
                let stdout_value :=
                  if Py.contains "flag" (Py.lower sanitized_code)
                  then stdout_value
                       +:+ (if Py.nonempty stdout_value then Py.nl else EmptyString)
                       +:+ flag_store_note
                  else stdout_value in
                log_attempt E "INFO" "User executed sandbox payload successfully." ;;
                ret (Returns
                       {| stdout := stdout_value;
                          stderr := stderr_value;
                          error := if Py.nonempty stderr_value
                                   then Some (Py.strip stderr_value) else None;
                          duration := duration;
                          banned_keywords_hit := keyword_hits;
                          fake_flag_dropped := fake_flag_dropped;
                          banner := banner;
                          vm_sessions := vm_results |})
            end
        end
    end.

End Execution.

(* ===================================================================== *)
(** * A concrete environment, for evaluating the model                    *)
(* ===================================================================== *)

Module Demo.

Definition zero_division : exn :=
  Exn (OtherException "ZeroDivisionError") "division by zero".

(** An assertion that fails with a tuple nested too deep for [repr]: the
    [str] of the [AssertionError] raises a [RecursionError]. *)
Definition deep_assert : string :=
  "t = ()" +:+ Py.nl +:+ "for _ in range(100000): t = (t,)" +:+ Py.nl +:+ "assert 0, t".

Definition recursion_error : exn :=
  Exn (OtherException "RecursionError")
    "maximum recursion depth exceeded while getting the repr of an object".

(** A snippet that reaches the queue through the closure of the hook,
    takes out what the hook queued and puts in an empty payload. *)
Definition tamper_queue : string :=
  "vm_escape(b'A')" +:+ Py.nl
  +:+ "q = vm_escape.__getattribute__('__clo' + 'sure__')[1].cell_contents" +:+ Py.nl
  +:+ "q.clear(); q.append(b'')".

(** A loop that swallows whatever interrupts it, followed by a division by
    zero. *)
Definition catch_then_divide : string :=
  "try:" +:+ Py.nl +:+ "    while True: pass" +:+ Py.nl
  +:+ "except: pass" +:+ Py.nl +:+ "1/0".

(** What the snippets used below do when run; any other text is taken not
    to compile. *)
Definition snippets (code : string) : prog + exn :=
  if String.eqb code catch_then_divide then
    inl (Fire (fun raised_in_thread =>
                 match raised_in_thread with
                 | Some _ => Throw zero_division
                 | None => Spin
                 end))
  else if String.eqb code "print('hi')" then
    inl (Out ("hi" +:+ Py.nl) Ret)
  else if String.eqb code "x = 'flag'" then
    inl Ret
  else if String.eqb code "vm_escape(b'A')" then
    inl (Call "vm_escape" [PBytes ["A"%byte]] None
           (fun r => match r with Failed e => Throw e | _ => Ret end))
  else if String.eqb code "escape(b'A')" then
    inl (Call "escape" [PBytes ["A"%byte]] None
           (fun r => match r with Failed e => Throw e | _ => Ret end))
  else if String.eqb code ("vm_escape(b'A')" +:+ Py.nl +:+ "1/0") then
    inl (Call "vm_escape" [PBytes ["A"%byte]] None
           (fun r => match r with
                     | Failed e => Throw e
                     | _ => Throw zero_division
                     end))
  else if String.eqb code "1/0" then
    inl (Throw zero_division)
  else if String.eqb code deep_assert then
    inl (Throw (Unprintable (OtherException "AssertionError") recursion_error))
  else if String.eqb code tamper_queue then
    inl (Call "vm_escape" [PBytes ["A"%byte]] None
           (fun r => match r with
                     | Failed e => Throw e
                     | _ => Tamper (fun _ => [[]]) Ret
                     end))
  else inr (Exn SyntaxError "invalid syntax (<pyjail>, line 1)").

(** [latin-1] encodes every character of the model; [ascii] refuses the
    upper half.  The clock of [env] advances by one second at each reading,
    so that [fmt3] only has whole numbers to format. *)
Definition codecs (name : string) : option (string -> list byte + exn) :=
  if String.eqb name "latin-1" then Some (fun s => inl (list_byte_of_string s))
  else if String.eqb name "ascii" then
    Some (fun s =>
            if forallb (fun b => (Byte.to_N b <? 128)%N) (list_byte_of_string s)
            then inl (list_byte_of_string s)
            else inr (Exn (OtherValueError "UnicodeEncodeError")
                        "'ascii' codec can't encode character: ordinal not in range(128)"))
  else None.

Definition env : pyenv :=
  {| monotonic := fun n => inject_Z (Z.of_nat n);
     strftime := fun _ => "2024-01-01 00:00:00";
     randbelow := fun _ => 0;
     repr := fun s => "'" +:+ s +:+ "'";
     shorten := fun s => s;
     fmt3 := fun q => Py.str_Z (Qnum q / Zpos (Qden q)) +:+ ".000";
     codec := codecs;
     compile := snippets;
     get_ident := 1;
     set_async_exc := Some 1%Z;
     worker := fun _ _ => Exited EmptyString EmptyString 0 |}.

Definition jail : PythonJail := PythonJail_init "/srv/isol8r" None DEFAULT_TIMEOUT.

Definition world0 : world :=
  {| bait_log := []; bait_log_access := LogWritable;
     flag_dir := ∅; flag_dir_access := DirListable; flag_dir_writable := true;
     catalog_file := CatalogText ["flag{decoy_one}"; "flag{decoy_two}"];
     binary_exists := false; popen_calls := []; warnings := [];
     monotonic_reads := 0; strftime_reads := 0; random_draws := 0 |}.

(** The same files with a catalogue that is not valid UTF-8, and with a
    file in the place of the decoy directory. *)
Definition world_undecodable : world :=
  {| bait_log := []; bait_log_access := LogWritable;
     flag_dir := ∅; flag_dir_access := DirListable; flag_dir_writable := true;
     catalog_file :=
       CatalogUnicodeError
         "'utf-8' codec can't decode byte 0xff in position 0: invalid start byte";
     binary_exists := false; popen_calls := []; warnings := [];
     monotonic_reads := 0; strftime_reads := 0; random_draws := 0 |}.

Definition world_no_directory : world :=
  {| bait_log := []; bait_log_access := LogWritable;
     flag_dir := ∅;
     flag_dir_access :=
       DirUnavailable "FileExistsError"
         "[Errno 17] File exists: '/srv/isol8r/data/fake_flags'";
     flag_dir_writable := false;
     catalog_file := CatalogText ["flag{decoy_one}"; "flag{decoy_two}"];
     binary_exists := false; popen_calls := []; warnings := [];
     monotonic_reads := 0; strftime_reads := 0; random_draws := 0 |}.

Definition state0 : state := {| self := jail; os := world0 |}.

End Demo.
(* ===================================================================== *)
(** * Notions used in the statements                                      *)
(* ===================================================================== *)

(** The order of [sorted] on [str], and a list that increases strictly from
    one element to the next. *)
Definition slt (a b : string) : Prop := String.compare a b = Lt.

Fixpoint increasing (l : list string) : Prop :=
  match l with
  | [] => True
  | x :: r => match r with [] => True | y :: _ => slt x y end /\ increasing r
  end.

(** The test of the loop of [check_banned_keywords]. *)
Definition keyword_matches (code keyword : string) : bool :=
  Py.contains (Py.lower keyword) (Py.lower code).

(** The filter as the specification words it: the configured terms that
    occur, as they are written, in the lower-cased code. *)
Definition spec_check_banned_keywords (j : PythonJail) (code : string) : list string :=
  List.filter (fun keyword => Py.contains keyword (Py.lower code)) (banned_keywords j).

(** The keywords handed to the constructor, an empty argument counting as
    none. *)
Definition provided_keywords (banned : option (list string)) : list string :=
  default [] banned.




(** The acknowledgement of the hook for [n] accepted bytes. *)
Definition acknowledgement (n : nat) : string :=
  "tiny_vmmgr payload queued (" +:+ Py.str_nat n +:+ " bytes).".

(** A guard whose watchdog has fired while the region was running. *)
Definition fired_guard (E : pyenv) : TimeoutGuard :=
  (_timeout_triggered E (__enter__ E (TimeoutGuard_init 1 "PythonJail exec"))).1.

(** The text [execute_code] works on, and its first test on it. *)
Definition sanitize (code : string) : string := Py.rstrip (Py.replace_crlf code).

(* the second test subsumes the first: see [mentions_hook_iff] *)
Definition mentions_hook (sanitized_code : string) : bool :=
  Py.contains "legacy_hook(" sanitized_code || Py.contains "hook(" sanitized_code.

(** The state in which the snippet starts, and the end of its guarded run. *)
Definition initial_exec_state (j : PythonJail) : exec_state :=
  {| stdout_capture := EmptyString; stderr_capture := EmptyString; vm_queue := [];
     guard := TimeoutGuard_init (timeout_seconds j) "PythonJail exec" |}.

Definition snippet_run (E : pyenv) (j : PythonJail) (p : prog) : exec_state * completion :=
  guarded_exec E j _build_exec_environment p (initial_exec_state j).

(** The highest index among the decoy files of a directory (1 when there is
    none), and the name [drop_fake_flag] writes to. *)
Definition highest_decoy_index (d : gmap string node) : nat :=
  foldl scan_entry 1 (map_to_list d).

Definition next_decoy_name (w : world) : string :=
  if flag_dir_listable w
  then "fake-flag" +:+ Py.str_nat (highest_decoy_index (flag_dir w) + 1) +:+ ".txt"
  else "fake-flag2.txt".

(** An environment with other snippets, another worker and another
    thread-interruption primitive. *)
Definition with_snippets (E : pyenv) (c : string -> prog + exn)
    (w : nat -> list byte -> proc_outcome) (a : option Z) : pyenv :=
  {| monotonic := monotonic E; strftime := strftime E; randbelow := randbelow E;
     repr := repr E; shorten := shorten E; fmt3 := fmt3 E; codec := codec E;
     compile := c; get_ident := get_ident E; set_async_exc := a; worker := w |}.

(** Two states that differ at most in the bait log, the warnings, the
    counters of the clocks and the two flags of reported errors. *)
Definition same_files (s s' : state) : Prop :=
  flag_dir (os s') = flag_dir (os s)
  /\ flag_dir_access (os s') = flag_dir_access (os s)
  /\ flag_dir_writable (os s') = flag_dir_writable (os s)
  /\ catalog_file (os s') = catalog_file (os s)
  /\ binary_exists (os s') = binary_exists (os s)
  /\ bait_log_access (os s') = bait_log_access (os s)
  /\ popen_calls (os s') = popen_calls (os s)
  /\ project_root (self s') = project_root (self s)
  /\ fake_flag_dir (self s') = fake_flag_dir (self s)
  /\ timeout_seconds (self s') = timeout_seconds (self s)
  /\ banned_keywords (self s') = banned_keywords (self s).

(** What the decoy drop raises, by the files it finds: the
    [UnicodeDecodeError] of a catalogue that is not valid UTF-8, or else
    the [OSError] of a decoy directory that cannot be made. *)
Definition decoy_drop_error (w : world) : option exn :=
  match catalog_file w with
  | CatalogUnicodeError text => Some (Exn (OtherValueError "UnicodeDecodeError") text)
  | _ => mkdir_fake_flag_dir w
  end.

(** The state in which the violation path leaves the jail: the clock was
    read, the attempt logged and the decoy dropped. *)
Definition after_violation (E : pyenv) (code : string) (s : state) : state :=
  (drop_fake_flag E
     (log_attempt E "BAIT"
        ("User attempted " +:+ repr E
           (if String.length (sanitize code) <=? 160 then sanitize code
            else String.substring 0 157 (sanitize code) +:+ "..."))
        (read_monotonic E s).2).2).2.

(** The state in which the harness starts on the normal path: the clock was
    read at the start of the call and after the run. *)
Definition harness_state (E : pyenv) (s : state) : state :=
  (read_monotonic E (read_monotonic E s).2).2.

(** The session synthesised for a payload when the worker binary is
    missing. *)
Definition missing_session (j : PythonJail) : vm_session :=
  missing_binary_session ("tiny_vmmgr binary missing at " +:+ binary_path j).

(* ===================================================================== *)
(** * The callers of [execute_code] and the [Locker] facade               *)
(* ===================================================================== *)



(** [x or d] on an optional text *)
Definition or_default (x : option string) (d : string) : string :=
  match x with
  | Some s => if Py.nonempty s then s else d
  | None => d
  end.



(** ** [run_in_jail] of [utils/jail_sandbox.py] *)

(** The calls made on the logger [isol8r.sandbox]. *)
Inductive logger_record :=
| LoggerDebug (message : string)
| LoggerInfo (message : string)
| LoggerException (message : string).

(** The module keeps one jail, [_PYJAIL]; the state of the module is that
    of this jail together with the calls on the logger. *)
Record sandbox_state := {
  _PYJAIL : state;
  logger_records : list logger_record
}.

(** The dictionary [run_in_jail] returns.  The keys that the dictionary of
    an unexpected failure lacks are optional here, [None] standing for a
    missing key. *)
Record sandbox_dict := {
  k_output : string;
  k_error : option string;
  k_stderr : option string;
  k_log_entry : string;
  k_banner : option string;
  k_duration : Q;
  k_banned_keywords : list string;
  k_fake_flag_dropped : option bool;
  k_vm_sessions : option (list vm_session);
  k_vm_engaged : option bool;
  k_payload_excerpt : option (option string)
}.

Inductive sandbox_outcome :=
| SandboxReturns (d : sandbox_dict)
| SandboxRaises (e : exn)
| SandboxHangs.

(** [s.split(":", 1)[0]] *)
Fixpoint before_colon (s : string) : string :=
  match s with
  | EmptyString => EmptyString
  | String c r => if Ascii.eqb c ":" then EmptyString else String c (before_colon r)
  end.

Definition run_in_jail (E : pyenv) (code : string) (m : sandbox_state)
    : sandbox_outcome * sandbox_state :=
  let records :=
    logger_records m
    ++ [LoggerDebug ("Dispatching code to PyJail (length="
                     +:+ Py.str_nat (String.length code) +:+ " characters)")] in
  let '(o, s) := execute_code E code (_PYJAIL m) in
  match o with
  | Raises (RaisedViolation violation) =>
      let records :=
        records ++ [LoggerInfo ("PyJail violation triggered: " +:+ v_message violation)] in
      let log_entry := or_default (Some (v_log_entry violation)) (v_message violation) in
      let '(_, s) := log_attempt E "WARN" log_entry s in
      let keywords := v_keywords violation in
      let banner :=
        or_default (v_banner violation) "Containment alert: keyword tripwire fired." in
      let fake_flag_dropped := v_fake_flag_dropped violation in
      let payload_excerpt := v_payload_excerpt violation in
      (SandboxReturns
         {| k_output := EmptyString;
            k_error := Some (v_message violation);
            k_stderr := Some (v_message violation);
            k_log_entry := log_entry;
            k_banner := Some banner;
            k_duration := 0;
            k_banned_keywords := keywords;
            k_fake_flag_dropped := Some fake_flag_dropped;
            k_vm_sessions := Some [];
            k_vm_engaged := Some false;
            k_payload_excerpt := Some payload_excerpt |},
       {| _PYJAIL := s; logger_records := records |})
  | Raises (RaisedExn exc) =>
      if is_Exception (exc_type exc) then
        (* [logging] swallows a failure to format the record; the f-string
           of the dictionary formats [exc] again, and nothing catches what
           [str(exc)] raises there *)
        match py_str exc with
        | inr raised => (SandboxRaises raised, {| _PYJAIL := s; logger_records := records |})
        | inl text =>
            let records :=
              records
              ++ [LoggerException ("Unexpected failure in PyJail wrapper: " +:+ text)] in
            (SandboxReturns
               {| k_output := EmptyString;
                  k_error := Some ("PyJail encountered an unexpected issue: " +:+ text);
                  k_stderr := None;
                  k_log_entry :=
                    "Unclassified PyJail error. Someone please feed the watchdog.";
                  k_banner := Some "PyJail sputtered. Logs captured the chaos.";
                  k_duration := 0;
                  k_banned_keywords := [];
                  k_fake_flag_dropped := None;
                  k_vm_sessions := None;
                  k_vm_engaged := None;
                  k_payload_excerpt := None |},
             {| _PYJAIL := s; logger_records := records |})
        end
      else (SandboxRaises exc, {| _PYJAIL := s; logger_records := records |})
  | Hangs => (SandboxHangs, {| _PYJAIL := s; logger_records := records |})
  | Returns result =>
      let error_message := error result in
      let error_message :=
        match error_message with
        | Some text =>
            if Py.nonempty text && negb (Py.nonempty (Py.strip (stderr result))) then
              let error_type := before_colon text in
              if String.eqb error_type "SyntaxError"
              then Some (text +:+ " (SyntaxError: the parser has left the chat.)")
              else Some text
            else Some text
        | None => None
        end in
      (SandboxReturns
         {| k_output := stdout result;
            k_error := error_message;
            k_stderr := Some (stderr result);
            k_log_entry := "Sandbox executed peacefully. Reality intact.";
            k_banner := banner result;
            k_duration := duration result;
            k_banned_keywords := banned_keywords_hit result;
            k_fake_flag_dropped := Some (fake_flag_dropped result);
            k_vm_sessions := Some (vm_sessions result);
            k_vm_engaged := Some (match vm_sessions result with [] => false | _ => true end);
            k_payload_excerpt := Some None |},
       {| _PYJAIL := s; logger_records := records |})
  end.

(** ** The [Locker] facade of [_build_exec_environment] *)

(** [Locker.__getitem__], [Locker.__contains__] and [Locker.keys] (the
    keys as a set) on the copy [_mapping] the facade holds; the class has no
    method that writes. *)
Definition Locker_getitem (E : pyenv) (_mapping : gmap string global_obj) (key : string)
    : global_obj + exn :=
  match _mapping !! key with
  | Some o => inl o
  | None => inr (Exn (OtherException "KeyError") (repr E key))
  end.

Definition Locker_contains (_mapping : gmap string global_obj) (key : string) : bool :=
  match _mapping !! key with Some _ => true | None => false end.

Definition Locker_keys (_mapping : gmap string global_obj) : gset string :=
  dom _mapping.

(* ===================================================================== *)
(** * Further notions used in the statements                              *)
(* ===================================================================== *)

(** [s.isascii()] *)
Definition isascii (s : string) : bool :=
  forallb (fun c => nat_of_ascii c <? 128) (list_ascii_of_string s).


(** A run during which the watchdog does not fire. *)
Fixpoint no_fire (p : prog) : Prop :=
  match p with
  | Ret | Throw _ | Spin => True
  | Out _ k | Err _ k | Tamper _ k => no_fire k
  | Call _ _ _ k => forall r, no_fire (k r)
  | Fire _ => False
  end.


(** A text with a character that [strip] keeps. *)
Fixpoint has_nonspace (s : string) : bool :=
  match s with
  | EmptyString => false
  | String c r => negb (Py.is_space c) || has_nonspace r
  end.

(** The index a decoy entry counts for in [_next_fake_flag_path]: that of
    its name when it is a file with a decoy name, 0 otherwise. *)
Definition entry_index (entry : string * node) : nat :=
  match entry.2 with
  | Directory => 0
  | File _ =>
      match fake_flag_name_match entry.1 with
      | None => 0
      | Some digits => Py.int_digits 0 digits
      end
  end.

(** The name [drop_fake_flag] gives the decoy of index [n]. *)
Definition decoy_name (n : nat) : string := "fake-flag" +:+ Py.str_nat n +:+ ".txt".




(** A state of the demonstration jail whose log cannot be written. *)
Definition locked_log_state : state :=
  {| self := Demo.jail;
     os := {| bait_log := []; bait_log_access := LogUnwritable;
              flag_dir := ∅; flag_dir_access := DirListable; flag_dir_writable := true;
              catalog_file := CatalogOSError; binary_exists := false; popen_calls := [];
              warnings := []; monotonic_reads := 0; strftime_reads := 0;
              random_draws := 0 |} |}.


(** The banner of a result whose code reached the harness. *)
Definition escalation_banner : string := "PyJail containment pierced: tiny_vmmgr engaged.".

(** A session that tells a clean exit: no error and the exit status 0. *)
Definition coherent_session (x : vm_session) : Prop :=
  (s_error x = None -> s_returncode x = Some 0%Z)
  /\ (s_returncode x = None -> exists e, s_error x = Some e /\ Py.nonempty e = true).

(* ===================================================================== *)
(** * The model on small inputs                                           *)
(* ===================================================================== *)

Example rstrip_trailing : Py.rstrip ("ab  " +:+ Py.nl) = "ab".
Proof. reflexivity. Qed.
Example rstrip_inner : Py.rstrip "a b" = "a b".
Proof. reflexivity. Qed.
Example rstrip_all : Py.rstrip "   " = EmptyString.
Proof. reflexivity. Qed.
Example strip_both : Py.strip "  a b  " = "a b".
Proof. reflexivity. Qed.
Example replace_crlf_line :
  Py.replace_crlf (String "a" (String Py.CR (String Py.LF "b"))) = String "a" (String Py.LF "b").
Proof. reflexivity. Qed.
Example replace_crlf_double_cr :
  Py.replace_crlf (String Py.CR (String Py.CR (String Py.LF EmptyString)))
  = String Py.CR (String Py.LF EmptyString).
Proof. reflexivity. Qed.
Example lower_mixed : Py.lower "ImPort OS_1" = "import os_1".
Proof. reflexivity. Qed.
Example contains_inner : Py.contains "os" "import os" = true.
Proof. reflexivity. Qed.
Example contains_absent : Py.contains "sys" "import os" = false.
Proof. reflexivity. Qed.
Example str_nat_12 : Py.str_nat 12 = "12".
Proof. reflexivity. Qed.
Example str_Z_negative : Py.str_Z (-9) = "-9".
Proof. reflexivity. Qed.
Example decoy_name_plain : fake_flag_name_match "fake-flag12.txt" = Some "12".
Proof. reflexivity. Qed.
Example decoy_name_upper : fake_flag_name_match "FAKE_FLAG007.TXT" = Some "007".
Proof. reflexivity. Qed.
Example decoy_name_newline : fake_flag_name_match ("fakeflag3.txt" +:+ Py.nl) = Some "3".
Proof. reflexivity. Qed.
Example decoy_name_no_digits : fake_flag_name_match "fake-flag.txt" = None.
Proof. reflexivity. Qed.
Example decoy_name_prefixed : fake_flag_name_match "xfake-flag1.txt" = None.
Proof. reflexivity. Qed.
Example decoy_name_two_separators : fake_flag_name_match "fake--flag1.txt" = None.
Proof. reflexivity. Qed.
Example decoy_name_suffix : fake_flag_name_match "fake-flag1.txt.bak" = None.
Proof. reflexivity. Qed.
Example highest_index_example :
  highest_decoy_index
    (<["fake-flag2.txt" := File "a"]>
       (<["fake_flag10.txt" := File "b"]>
          (<["fake-flag99.txt" := Directory]> (<["notes.txt" := File "c"]> ∅))))
  = 10.
Proof. vm_compute. reflexivity. Qed.
Example sorted_set_example : sorted_set ["os"; "import"; "os"; "eval"] = ["eval"; "import"; "os"].
Proof. reflexivity. Qed.
Example py_int_float : py_int (VFloat (FFinite (-3) 2)) = IntOk (-1).
Proof. reflexivity. Qed.
Example join_three : Py.join ", " ["a"; "b"; "c"] = "a, b, c".
Proof. reflexivity. Qed.
Example normalise_too_long :
  _normalise_vm_payload Demo.env (PBytes (repeat "A"%byte 4097)) "latin-1"
  = inr (Exn ValueError "vm_escape payload exceeds 4096 bytes").
Proof. vm_compute. reflexivity. Qed.
Example normalise_limit :
  _normalise_vm_payload Demo.env (PBytes (repeat "A"%byte 4096)) "latin-1"
  = inl (repeat "A"%byte 4096).
Proof. vm_compute. reflexivity. Qed.
Example normalise_out_of_range :
  _normalise_vm_payload Demo.env (PIter [VInt 65; VInt 256]) "latin-1"
  = inr (Exn ValueError "Iterable payload values must be within 0-255").
Proof. reflexivity. Qed.
Example normalise_unknown_codec :
  _normalise_vm_payload Demo.env (PStr "A") "klingon"
  = inr (Exn ValueError "Unsupported encoding 'klingon'").
Proof. reflexivity. Qed.

(** An exception whose [str] raises is not returned: what [str] raised
    leaves [execute_code], and [run_in_jail] in turn when [str] fails on
    that one too. *)
Example unprintable_exception_leaves :
  check_banned_keywords Demo.jail (sanitize Demo.deep_assert) = []
  /\ mentions_hook (sanitize Demo.deep_assert) = false
  /\ (execute_code Demo.env Demo.deep_assert Demo.state0).1
     = Raises (RaisedExn Demo.recursion_error)
  /\ (run_in_jail Demo.env Demo.deep_assert
        {| _PYJAIL := Demo.state0; logger_records := [] |}).1
     = SandboxReturns
         {| k_output := EmptyString;
            k_error :=
              Some ("PyJail encountered an unexpected issue: "
                    +:+ "maximum recursion depth exceeded while getting the repr of an object");
            k_stderr := None;
            k_log_entry := "Unclassified PyJail error. Someone please feed the watchdog.";
            k_banner := Some "PyJail sputtered. Logs captured the chaos.";
            k_duration := 0;
            k_banned_keywords := [];
            k_fake_flag_dropped := None;
            k_vm_sessions := None;
            k_vm_engaged := None;
            k_payload_excerpt := None |}.
Proof. repeat split; vm_compute; reflexivity. Qed.

Example unprintable_twice_leaves_run_in_jail :
  let snippets code :=
    if String.eqb code "raise Oops()"
    then inl (Throw (Unprintable (OtherException "Oops")
                       (Unprintable (OtherException "Oops") Demo.zero_division)))
    else Demo.snippets code in
  (run_in_jail (with_snippets Demo.env snippets (worker Demo.env) (set_async_exc Demo.env))
     "raise Oops()" {| _PYJAIL := Demo.state0; logger_records := [] |}).1
  = SandboxRaises Demo.zero_division.
Proof. vm_compute. reflexivity. Qed.

(** A catalogue that is not valid UTF-8, and a file in the place of the
    decoy directory: the attempt is logged, what the drop raised leaves
    [execute_code] in the place of the violation, and no decoy is written. *)
Example undecodable_catalogue_leaves :
  let s := {| self := Demo.jail; os := Demo.world_undecodable |} in
  (execute_code Demo.env "import os" s).1
  = Raises (RaisedExn
              (Exn (OtherValueError "UnicodeDecodeError")
                 "'utf-8' codec can't decode byte 0xff in position 0: invalid start byte"))
  /\ flag_dir (os (execute_code Demo.env "import os" s).2) = ∅
  /\ length (bait_log (os (execute_code Demo.env "import os" s).2)) = 1.
Proof. repeat split; vm_compute; reflexivity. Qed.

Example missing_directory_leaves :
  let s := {| self := Demo.jail; os := Demo.world_no_directory |} in
  (execute_code Demo.env "import os" s).1
  = Raises (RaisedExn
              (Exn (OtherException "FileExistsError")
                 "[Errno 17] File exists: '/srv/isol8r/data/fake_flags'"))
  /\ flag_dir (os (execute_code Demo.env "import os" s).2) = ∅.
Proof. repeat split; vm_compute; reflexivity. Qed.

(** A snippet that reaches the queue through the closure of the hook
    passes the filter, and leaves a payload the hook would have refused;
    the harness takes it as it is. *)
Example tampered_queue :
  check_banned_keywords Demo.jail (sanitize Demo.tamper_queue) = []
  /\ mentions_hook (sanitize Demo.tamper_queue) = false
  /\ (exists p, compile Demo.env (sanitize Demo.tamper_queue) = inl p
                /\ vm_queue (snippet_run Demo.env Demo.jail p).1 = [[]])
  /\ (exists e, _normalise_vm_payload Demo.env (PBytes []) "latin-1" = inr e)
  /\ (exists r, (execute_code Demo.env Demo.tamper_queue Demo.state0).1 = Returns r
                /\ length (vm_sessions r) = 1).
Proof.
  split; [vm_compute; reflexivity|]. split; [vm_compute; reflexivity|].
  split; [eexists; split; vm_compute; reflexivity|].
  split; [eexists; reflexivity|].
  eexists. split; vm_compute; reflexivity.
Qed.

(** A message with a line feed inside makes one entry of two lines. *)
Example log_entry_of_two_lines :
  bait_log (os (log_attempt Demo.env "info" ("a" +:+ Py.nl +:+ "b") Demo.state0).2)
  = ["[INFO] a" +:+ Py.nl +:+ "b at 2024-01-01 00:00:00"].
Proof. reflexivity. Qed.

(* ===================================================================== *)
(** * Facts on the string operations                                      *)
(* ===================================================================== *)

Module PyFacts.
Import Py.

Lemma append_nil (b : string) : EmptyString +:+ b = b.
Proof. reflexivity. Qed.

Lemma append_cons (x : ascii) (a b : string) : String x a +:+ b = String x (a +:+ b).
Proof. reflexivity. Qed.

Lemma append_assoc (a b c : string) : (a +:+ b) +:+ c = a +:+ (b +:+ c).
Proof. induction a as [|x a IH]; rewrite ?append_nil, ?append_cons; congruence. Qed.

Lemma prefix_append (t b : string) : String.prefix t (t +:+ b) = true.
Proof.
  induction t as [|x t IH]; rewrite ?append_nil, ?append_cons; simpl.
  - now destruct b.
  - destruct (ascii_dec x x) as [_|N]; [exact IH | now elim N].
Qed.

Lemma contains_prefix (t s : string) :
  String.prefix t s = true -> contains t s = true.
Proof. intros H. destruct s; cbn [contains]; rewrite H; reflexivity. Qed.

(** An occurrence anywhere is found by [contains]. *)
Lemma contains_append (t a b : string) : contains t (a +:+ t +:+ b) = true.
Proof.
  induction a as [|x a IH]; rewrite ?append_nil, ?append_cons.
  - apply contains_prefix, prefix_append.
  - cbn [contains]. rewrite IH. apply orb_true_r.
Qed.

Lemma prefix_split (t s : string) :
  String.prefix t s = true -> exists b, s = t +:+ b.
Proof.
  revert s. induction t as [|x t IH]; intros s H.
  - exists s. reflexivity.
  - destruct s as [|y s]; simpl in H; [discriminate|].
    destruct (ascii_dec x y) as [->|]; [|discriminate].
    destruct (IH _ H) as [b ->]. exists b. reflexivity.
Qed.

Lemma contains_split (t s : string) :
  contains t s = true -> exists a b, s = a +:+ t +:+ b.
Proof.
  induction s as [|y s IH]; cbn [contains]; intros H.
  - rewrite orb_false_r in H. destruct (prefix_split _ _ H) as [b Hb].
    exists EmptyString, b. exact Hb.
  - apply orb_true_iff in H. destruct H as [H|H].
    + destruct (prefix_split _ _ H) as [b Hb]. exists EmptyString, b. exact Hb.
    + destruct (IH H) as (a & b & ->). exists (String y a), b. reflexivity.
Qed.













End PyFacts.

(* ===================================================================== *)
(** * The configured keywords: [sorted(set(...))]                         *)
(* ===================================================================== *)

Section SortedSet.

Lemma ascii_compare_N (a b : ascii) :
  Ascii.compare a b = N.compare (N_of_ascii a) (N_of_ascii b).
Proof. reflexivity. Qed.

Lemma ascii_compare_trans (a b c : ascii) :
  Ascii.compare a b = Lt -> Ascii.compare b c = Lt -> Ascii.compare a c = Lt.
Proof.
  rewrite !ascii_compare_N, !N.compare_lt_iff. lia.
Qed.

Lemma slt_trans (a b c : string) : slt a b -> slt b c -> slt a c.
Proof.
  unfold slt. revert b c.
  induction a as [|x a IH]; intros [|y b] [|z c]; simpl; try congruence.
  destruct (Ascii.compare x y) eqn:Hxy; try discriminate;
    destruct (Ascii.compare y z) eqn:Hyz; try discriminate; intros H1 H2.
  - apply Ascii.compare_eq_iff in Hxy, Hyz. subst.
    assert (Ascii.compare z z = Eq) as ->
      by (rewrite ascii_compare_N; apply N.compare_refl).
    eauto.
  - apply Ascii.compare_eq_iff in Hxy. subst. now rewrite Hyz.
  - apply Ascii.compare_eq_iff in Hyz. subst. now rewrite Hxy.
  - now rewrite (ascii_compare_trans _ _ _ Hxy Hyz).
Qed.

Lemma slt_irrefl (a : string) : ~ slt a a.
Proof.
  unfold slt. intros H. pose proof (String.compare_antisym a a) as Ha.
  rewrite H in Ha. discriminate.
Qed.

Lemma increasing_head_lt (x : string) (r : list string) :
  increasing (x :: r) -> Forall (slt x) r.
Proof.
  revert x. induction r as [|y r IH]; intros x H; [constructor|].
  destruct H as [Hxy Hr]. constructor; [exact Hxy|].
  eapply Forall_impl; [apply (IH y Hr)|].
  intros z Hz. exact (slt_trans _ _ _ Hxy Hz).
Qed.

Lemma increasing_NoDup (l : list string) : increasing l -> NoDup l.
Proof.
  induction l as [|x r IH]; intros H; [constructor|].
  constructor; [|apply IH, H].
  intros Hin. pose proof (increasing_head_lt _ _ H) as Hall.
  rewrite Forall_forall in Hall. exact (slt_irrefl _ (Hall _ Hin)).
Qed.

Lemma insert_sorted_increasing (k : string) (l : list string) :
  increasing l -> increasing (insert_sorted k l).
Proof.
  induction l as [|x r IH]; intros H; [simpl; auto|].
  cbn [insert_sorted]. destruct (String.compare k x) eqn:Hk.
  - exact H.
  - split; [exact Hk | exact H].
  - destruct H as [Hx Hr]. specialize (IH Hr).
    split; [|exact IH].
    assert (Hxk : slt x k).
    { unfold slt. rewrite String.compare_antisym, Hk. reflexivity. }
    destruct r as [|y r']; cbn [insert_sorted]; [exact Hxk|].
    destruct (String.compare k y); assumption.
Qed.

Lemma insert_sorted_elem (k a : string) (l : list string) :
  a ∈ insert_sorted k l <-> a = k \/ a ∈ l.
Proof.
  induction l as [|x r IH]; cbn [insert_sorted].
  - rewrite list_elem_of_singleton, elem_of_nil. tauto.
  - destruct (String.compare k x) eqn:Hk.
    + apply String.compare_eq_iff in Hk. subst. rewrite elem_of_cons. tauto.
    + rewrite (elem_of_cons (x :: r)). tauto.
    + rewrite !elem_of_cons, IH. tauto.
Qed.

Lemma sorted_set_increasing (l : list string) : increasing (sorted_set l).
Proof.
  induction l as [|k l IH]; [exact I|]. now apply insert_sorted_increasing.
Qed.

Lemma sorted_set_elem (a : string) (l : list string) : a ∈ sorted_set l <-> a ∈ l.
Proof.
  induction l as [|k l IH]; [reflexivity|].
  cbn [sorted_set foldr]. fold (sorted_set l).
  rewrite insert_sorted_elem, IH, elem_of_cons. reflexivity.
Qed.

End SortedSet.

(* ===================================================================== *)
(** * Keyword filter                                                       *)
(* ===================================================================== *)

Section Filter.

Lemma check_loop_filter (normalized : string) (l acc : list string) :
  foldl (fun matches keyword =>
           if Py.contains (Py.lower keyword) normalized
           then matches ++ [keyword] else matches) acc l
  = acc ++ List.filter (fun k => Py.contains (Py.lower k) normalized) l.
Proof.
  revert acc. induction l as [|k l IH]; intros acc; simpl.
  - now rewrite app_nil_r.
  - rewrite IH. destruct (Py.contains (Py.lower k) normalized); [|reflexivity].
    now rewrite <- app_assoc.
Qed.

Lemma check_banned_keywords_filter (j : PythonJail) (code : string) :
  check_banned_keywords j code = List.filter (keyword_matches code) (banned_keywords j).
Proof. unfold check_banned_keywords. now rewrite check_loop_filter. Qed.

Lemma list_filter_sublist {A} (f : A -> bool) (l : list A) :
  sublist (List.filter f l) l.
Proof.
  induction l as [|x l IH]; simpl; [constructor|].
  destruct (f x); now constructor.
Qed.

Lemma banned_keywords_init (root : string) (banned : option (list string)) (t : Q) :
  banned_keywords (PythonJail_init root banned t)
  = sorted_set (DEFAULT_BANNED_KEYWORDS ++ provided_keywords banned).
Proof. destruct banned as [[|k r]|]; reflexivity. Qed.

(** C8 (as amended).  [check_banned_keywords] returns exactly the configured
    terms whose lower-cased form occurs in the lower-cased code, in the
    configured order; the configured sequence is the duplicate-free, sorted
    union of the defaults and the operator's additions. *)
Theorem check_banned_keywords_spec (root : string) (banned : option (list string))
    (t : Q) (code : string) :
  let j := PythonJail_init root banned t in
  check_banned_keywords j code = List.filter (keyword_matches code) (banned_keywords j)
  /\ sublist (check_banned_keywords j code) (banned_keywords j)
  /\ NoDup (banned_keywords j)
  /\ increasing (banned_keywords j)
  /\ (forall k, k ∈ banned_keywords j <->
                k ∈ DEFAULT_BANNED_KEYWORDS \/ k ∈ provided_keywords banned).
Proof.
  intros j. split; [apply check_banned_keywords_filter|].
  split; [rewrite check_banned_keywords_filter; apply list_filter_sublist|].
  unfold j. rewrite banned_keywords_init.
  split; [apply increasing_NoDup, sorted_set_increasing|].
  split; [apply sorted_set_increasing|].
  intros k. rewrite sorted_set_elem, elem_of_app. reflexivity.
Qed.

(** C8 as stated fails on an operator's term written in upper case: the
    term ["FOO"] is reported for the code ["foo"], in whose lower-cased text
    it does not occur. *)
Lemma check_banned_keywords_upper_case_term :
  let j := PythonJail_init "/srv/isol8r" (Some ["FOO"]) DEFAULT_TIMEOUT in
  check_banned_keywords j "foo" = ["FOO"]
  /\ spec_check_banned_keywords j "foo" = []
  /\ check_banned_keywords j "foo" <> spec_check_banned_keywords j "foo".
Proof. vm_compute. repeat split; discriminate. Qed.

End Filter.

(* ===================================================================== *)
(** * Timeout guard                                                       *)
(* ===================================================================== *)

Section GuardFacts.
Variable E : pyenv.

Lemma class_of_timeout_is_JailTimeout (c : timeout_class) :
  is_JailTimeout (class_of_timeout c) = true.
Proof. destruct c; reflexivity. Qed.

(** C6 (as amended).  Once the watchdog has fired, leaving the guarded
    region without an exception raises the timeout; leaving it with an
    exception lets that very exception through: the timeout when it is the
    one that propagates, the other exception otherwise. *)
Theorem expired_guard_exit (g : TimeoutGuard) (body : completion) :
  _enabled g = true -> _expired g = true ->
  match body with
  | Normal =>
      exists e, (leave_with E g Normal).2 = Exc e
                /\ is_JailTimeout (exc_type e) = true
                /\ exc_str e = "time budget exceeded for " +:+ repr E (label g)
  | Exc e => (leave_with E g (Exc e)).2 = Exc e
  | Hang => (leave_with E g Hang).2 = Hang
  end.
Proof.
  intros Hen Hex. destruct body as [|e|]; cbn [leave_with].
  - unfold __exit__. rewrite Hen. cbn [negb _expired].
    rewrite Hex. unfold _get_timeout_exception_type. cbn [_timeout_exc_type].
    destruct (_timeout_exc_type g) as [c|] eqn:Hc;
      (eexists; split; [reflexivity|]; cbn; split; [|reflexivity]).
    + apply class_of_timeout_is_JailTimeout.
    + reflexivity.
  - unfold __exit__. rewrite Hen. cbn [negb _expired]. rewrite Hex.
    destruct (is_JailTimeout (exc_type e)); reflexivity.
  - reflexivity.
Qed.

End GuardFacts.

(** The amended C6 at a guard whose watchdog fired, the region ending
    without an exception. *)
Lemma expired_guard_exit_witness :
  _enabled (fired_guard Demo.env) = true
  /\ _expired (fired_guard Demo.env) = true
  /\ exists e, (leave_with Demo.env (fired_guard Demo.env) Normal).2 = Exc e
               /\ is_JailTimeout (exc_type e) = true
               /\ exc_str e = "time budget exceeded for "
                              +:+ repr Demo.env (label (fired_guard Demo.env)).
Proof.
  split; [reflexivity|]. split; [reflexivity|].
  apply (expired_guard_exit Demo.env (fired_guard Demo.env) Normal); reflexivity.
Defined.

(** C6 as stated fails when the protected code raised something else after
    the watchdog had fired: the guard lets the other exception through, and
    [execute_code] reports it as a runtime failure, not as a timeout. *)
Lemma expired_guard_other_exception :
  _enabled (fired_guard Demo.env) = true
  /\ _expired (fired_guard Demo.env) = true
  /\ (leave_with Demo.env (fired_guard Demo.env) (Exc Demo.zero_division)).2
     = Exc Demo.zero_division
  /\ is_JailTimeout (exc_type Demo.zero_division) = false
  /\ exists r, (execute_code Demo.env Demo.catch_then_divide Demo.state0).1 = Returns r
               /\ error r = Some "ZeroDivisionError: division by zero".
Proof.
  repeat (split; [reflexivity|]). eexists. split; vm_compute; reflexivity.
Qed.

(* ===================================================================== *)
(** * Payload normaliser and escalation hook                              *)
(* ===================================================================== *)

Section HookFacts.
Variable E : pyenv.




End HookFacts.


(* ===================================================================== *)
(** * The namespace and the escalation hook in it                         *)
(* ===================================================================== *)

Section NamespaceFacts.
Variable E : pyenv.

Lemma set_vm_queue_same (st : exec_state) : set_vm_queue (vm_queue st) st = st.
Proof. destruct st; reflexivity. Qed.

Lemma resolve_vm_escape :
  resolve_name _build_exec_environment "vm_escape" = Some (RGlobal (NObj GVmEscape)).
Proof. reflexivity. Qed.

Lemma resolve_hook_only (name : string) :
  resolve_name _build_exec_environment name = Some (RGlobal (NObj GVmEscape))
  <-> name = "vm_escape".
Proof.
  split; [|intros ->; apply resolve_vm_escape].
  unfold resolve_name.
  destruct (_build_exec_environment !! name) as [o|] eqn:Hn.
  - intros [= ->]. revert Hn. unfold _build_exec_environment.
    rewrite lookup_insert. case_decide; [discriminate|].
    rewrite lookup_fmap.
    repeat (rewrite lookup_insert; case_decide; [subst; try discriminate; auto|]).
    rewrite lookup_empty. discriminate.
  - destruct (_build_exec_environment !! "__builtins__") as [[[d| | |]|]|];
      try discriminate.
    destruct (d !! name); discriminate.
Qed.

(** C4 (as amended).  The namespace binds the escalation hook under the
    name [vm_escape], and under no other name; a call [vm_escape(payload)] or
    [vm_escape(payload, encoding=...)] by the snippet normalises the payload
    and, when it is accepted, appends it to the queue of the call and gives
    back the acknowledgement with the byte count; the rest of the state of
    the call stays as it is, and a rejected payload leaves the queue
    untouched.  The encoding is accepted as a keyword only. *)
Theorem vm_escape_in_namespace :
  (forall name,
     resolve_name _build_exec_environment name = Some (RGlobal (NObj GVmEscape))
     <-> name = "vm_escape")
  /\ (forall p enc k st,
        run E _build_exec_environment (Call "vm_escape" [p] enc k) st
        = match _normalise_vm_payload E p (default "latin-1" enc) with
          | inl data =>
              run E _build_exec_environment
                (k (Returned (acknowledgement (length data))))
                (set_vm_queue (vm_queue st ++ [data]) st)
          | inr e => run E _build_exec_environment (k (Failed e)) st
          end)
  /\ (forall p encoding vm_queue,
        exists e, vm_escape E [p; PStr encoding] None vm_queue = (Failed e, vm_queue)
                  /\ exc_type e = TypeError).
Proof.
  split; [exact resolve_hook_only|]. split.
  - intros p enc k st. cbn [run]. rewrite resolve_vm_escape.
    unfold vm_escape.
    destruct (_normalise_vm_payload E p (default "latin-1" enc)) as [data|e].
    + reflexivity.
    + now rewrite set_vm_queue_same.
  - intros p encoding q. eexists. split; reflexivity.
Qed.

End NamespaceFacts.

(** C4 as stated fails on the name: nothing is bound to [escape], neither
    in the globals nor in the builtins, and a snippet that calls it ends in
    a [NameError] with nothing queued. *)
Lemma escape_is_not_bound :
  resolve_name _build_exec_environment "escape" = None
  /\ exists r, (execute_code Demo.env "escape(b'A')" Demo.state0).1 = Returns r
               /\ error r = Some "NameError: name 'escape' is not defined"
               /\ vm_sessions r = [].
Proof.
  split; [reflexivity|]. eexists. split; [vm_compute; reflexivity|].
  split; reflexivity.
Qed.

(* ===================================================================== *)
(** * The paths of [execute_code]                                         *)
(* ===================================================================== *)

(** Unfolding of the state monad. *)
Ltac run_monad :=
  cbv [bind ret get_self get_os modify_self modify_os warn warn_log_once
       warn_flag_once read_monotonic read_strftime random_choice];
  cbn [fst snd self os].

Section Paths.
Variable E : pyenv.

Lemma same_files_refl (s : state) : same_files s s.
Proof. repeat split. Qed.

Lemma same_files_trans (s1 s2 s3 : state) :
  same_files s1 s2 -> same_files s2 s3 -> same_files s1 s3.
Proof.
  unfold same_files. intros H1 H2.
  repeat match goal with H : _ /\ _ |- _ => destruct H end.
  repeat split; congruence.
Qed.

Lemma read_monotonic_files (s : state) : same_files s (read_monotonic E s).2.
Proof. repeat split. Qed.

Lemma log_attempt_files (event_type message : string) (s : state) :
  same_files s (log_attempt E event_type message s).2.
Proof.
  destruct s as [[? ? ? ? ? ? reported ? ?] [? writable ? ? ? ? ? ? ? ? ? ?]].
  destruct writable; [repeat split | destruct reported; repeat split ..].
Qed.

Lemma contains_hook_legacy (s : string) :
  Py.contains "hook(" s = false -> Py.contains "legacy_hook(" s = false.
Proof.
  intros H. destruct (Py.contains "legacy_hook(" s) eqn:Hl; [|reflexivity].
  destruct (PyFacts.contains_split _ _ Hl) as (a & b & ->).
  rewrite <- H. symmetry.
  replace (a +:+ "legacy_hook(" +:+ b) with ((a +:+ "legacy_") +:+ "hook(" +:+ b)
    by (rewrite PyFacts.append_assoc; reflexivity).
  apply PyFacts.contains_append.
Qed.

Lemma mentions_hook_iff (s : string) : mentions_hook s = Py.contains "hook(" s.
Proof.
  unfold mentions_hook. destruct (Py.contains "hook(" s) eqn:H.
  - apply orb_true_r.
  - now rewrite (contains_hook_legacy _ H).
Qed.

Lemma execute_code_hook (code : string) (s : state) :
  mentions_hook (sanitize code) = true ->
  execute_code E code s = (Raises (RaisedExn legacy_hook_error), (read_monotonic E s).2).
Proof.
  intros H. unfold execute_code, bind. cbn [read_monotonic].
  change (Py.contains "legacy_hook(" (Py.rstrip (Py.replace_crlf code))
          || Py.contains "hook(" (Py.rstrip (Py.replace_crlf code)))
    with (mentions_hook (sanitize code)).
  rewrite H. reflexivity.
Qed.

End Paths.

Section Harness.
Variable E : pyenv.

Lemma log_attempt_popen (event_type message : string) (s : state) :
  popen_calls (os (log_attempt E event_type message s).2) = popen_calls (os s).
Proof. apply (log_attempt_files E event_type message s). Qed.

Lemma launch_one_popen (payload : list byte) (s : state) :
  popen_calls (os (launch_one E payload s).2) = popen_calls (os s) ++ [payload].
Proof.
  unfold launch_one, popen_communicate. run_monad.
  destruct (worker E _ payload); cbv [bind ret];
    match goal with
    | |- context [log_attempt E ?a ?b ?s0] =>
        pose proof (log_attempt_popen a b s0) as Hl;
        destruct (log_attempt E a b s0) as [[] s1]
    end; cbn [snd fst] in *; rewrite Hl; reflexivity.
Qed.

Lemma launch_all_spec (payloads : list (list byte)) (results : list vm_session)
    (s : state) :
  length (launch_all E payloads results s).1 = length results + length payloads
  /\ popen_calls (os (launch_all E payloads results s).2) = popen_calls (os s) ++ payloads.
Proof.
  revert results s. induction payloads as [|payload rest IH]; intros results s.
  - cbn. rewrite app_nil_r. split; [lia | reflexivity].
  - cbn [launch_all]. unfold bind.
    pose proof (launch_one_popen payload s) as H1.
    destruct (launch_one E payload s) as [session s1]. cbn [snd] in H1.
    destruct (IH (results ++ [session]) s1) as [Hlen Hpop].
    rewrite Hlen, Hpop, H1, length_app, <- app_assoc. cbn. split; [lia | reflexivity].
Qed.

(** The sessions of the harness, one per payload, and the processes it
    starts: none when the binary is missing, one per payload otherwise. *)
Lemma launch_vm_payloads_spec (payloads : list (list byte)) (s : state) :
  length (_launch_vm_payloads E payloads s).1 = length payloads
  /\ (binary_exists (os s) = false ->
      (_launch_vm_payloads E payloads s).1
      = map (fun _ => missing_binary_session
                        ("tiny_vmmgr binary missing at " +:+ binary_path (self s)))
            payloads
      /\ popen_calls (os (_launch_vm_payloads E payloads s).2) = popen_calls (os s))
  /\ (binary_exists (os s) = true ->
      popen_calls (os (_launch_vm_payloads E payloads s).2) = popen_calls (os s) ++ payloads).
Proof.
  destruct payloads as [|payload rest].
  - cbn. rewrite app_nil_r. auto.
  - unfold _launch_vm_payloads. run_monad.
    destruct (binary_exists (os s)) eqn:Hb; cbn [negb].
    + destruct (launch_all_spec (payload :: rest) [] s) as [Hlen Hpop].
      split; [exact Hlen|]. split; [discriminate | intros _; exact Hpop].
    + set (message := "tiny_vmmgr binary missing at " +:+ binary_path (self s)).
      pose proof (log_attempt_popen "WARN" message s) as Hl.
      destruct (log_attempt E "WARN" message s) as [[] s1]. cbn [snd fst] in *.
      assert (Hfold : forall (l : list (list byte)) acc,
                 foldl (fun results _ => results ++ [missing_binary_session message]) acc l
                 = acc ++ map (fun _ => missing_binary_session message) l).
      { induction l as [|x l IHl]; intros acc; cbn.
        - now rewrite app_nil_r.
        - rewrite IHl, <- app_assoc. reflexivity. }
      rewrite Hfold. cbn [app]. rewrite length_map.
      split; [reflexivity|]. split; [|discriminate].
      intros _. split; [reflexivity | exact Hl].
Qed.

End Harness.

Section RunPaths.
Variable E : pyenv.

Ltac enter_execute H Hk :=
  unfold execute_code, bind; cbn [read_monotonic];
  change (Py.contains "legacy_hook(" (Py.rstrip (Py.replace_crlf ?c))
          || Py.contains "hook(" (Py.rstrip (Py.replace_crlf ?c)))
    with (mentions_hook (sanitize c));
  rewrite H; cbn [get_self self snd fst];
  change (Py.rstrip (Py.replace_crlf ?c)) with (sanitize c);
  rewrite Hk.

Lemma execute_code_compile_error (code : string) (s : state) (exc : exn) :
  mentions_hook (sanitize code) = false ->
  check_banned_keywords (self s) (sanitize code) = [] ->
  compile E (sanitize code) = inr exc ->
  (is_Exception (exc_type exc) = true ->
   match py_str exc with
   | inl text =>
       exists r s', execute_code E code s = (Returns r, s')
         /\ error r = Some (class_name (exc_type exc) +:+ ": " +:+ text)
         /\ stdout r = EmptyString
         /\ stderr r = write_sass (exc_type exc)
                         (class_name (exc_type exc) +:+ ": " +:+ text) EmptyString
         /\ vm_sessions r = []
         /\ same_files s s'
   | inr raised =>
       execute_code E code s = (Raises (RaisedExn raised), harness_state E s)
   end)
  /\ (is_Exception (exc_type exc) = false ->
      execute_code E code s = (Raises (RaisedExn exc), (read_monotonic E s).2)).
Proof.
  intros H Hk Hc. split; intros Hx.
  - destruct (py_str exc) as [text|raised] eqn:Hs.
    + enter_execute H Hk. rewrite Hc, Hx. unfold bind. cbn [read_monotonic snd fst].
      rewrite Hs.
      match goal with
      | |- context [log_attempt E ?a ?b ?s0] =>
          pose proof (log_attempt_files E a b s0) as Hl;
          destruct (log_attempt E a b s0) as [[] s1]
      end.
      cbn [snd fst] in *. do 2 eexists. split; [reflexivity|].
      cbn [error stdout stderr vm_sessions stdout_capture stderr_capture].
      repeat (split; [reflexivity|]).
      eapply same_files_trans; [|exact Hl].
      eapply same_files_trans; apply (read_monotonic_files E).
    + enter_execute H Hk. rewrite Hc, Hx. unfold bind. cbn [read_monotonic snd fst].
      rewrite Hs. reflexivity.
  - enter_execute H Hk. rewrite Hc, Hx. reflexivity.
Qed.

(** The paths after the guarded run.  An exception of the snippet that a
    handler formats is returned as a result when [str] gives its text; when
    [str] raises, what it raises leaves [execute_code], the attempt being
    logged already. *)
Lemma execute_code_run (code : string) (s : state) (p : prog) (st : exec_state)
    (c : completion) :
  mentions_hook (sanitize code) = false ->
  check_banned_keywords (self s) (sanitize code) = [] ->
  compile E (sanitize code) = inl p ->
  snippet_run E (self s) p = (st, c) ->
  match c with
  | Hang => execute_code E code s = (Hangs, (read_monotonic E s).2)
  | Exc exc =>
      if is_JailTimeout (exc_type exc) then
        match py_str exc with
        | inl text =>
            exists r s', execute_code E code s = (Returns r, s')
              /\ error r = Some text
              /\ stdout r = stdout_capture st
              /\ stderr r = write_sass JailTimeout
                              (class_name (exc_type exc) +:+ ": " +:+ text)
                              (stderr_capture st)
              /\ vm_sessions r = []
              /\ same_files s s'
        | inr raised =>
            exists s', execute_code E code s = (Raises (RaisedExn raised), s')
              /\ same_files s s'
        end
      else if is_Exception (exc_type exc) then
        match py_str exc with
        | inl text =>
            exists r s', execute_code E code s = (Returns r, s')
              /\ error r = Some (class_name (exc_type exc) +:+ ": " +:+ text)
              /\ stdout r = stdout_capture st
              /\ stderr r = write_sass (exc_type exc)
                              (class_name (exc_type exc) +:+ ": " +:+ text)
                              (stderr_capture st)
              /\ vm_sessions r = []
              /\ same_files s s'
        | inr raised =>
            exists s', execute_code E code s = (Raises (RaisedExn raised), s')
              /\ same_files s s'
        end
      else execute_code E code s = (Raises (RaisedExn exc), (read_monotonic E s).2)
  | Normal =>
      let vm_results := (_launch_vm_payloads E (vm_queue st) (harness_state E s)).1 in
      let agg := aggregate E (stdout_capture st) (stderr_capture st) None vm_results in
      exists r s', execute_code E code s = (Returns r, s')
        /\ vm_sessions r = vm_results
        /\ stdout r = (if Py.contains "flag" (Py.lower (sanitize code))
                       then agg.1.1 +:+ (if Py.nonempty agg.1.1 then Py.nl else EmptyString)
                            +:+ flag_store_note
                       else agg.1.1)
        /\ stderr r = agg.1.2
        /\ error r = (if Py.nonempty agg.1.2 then Some (Py.strip agg.1.2) else None)
        /\ banner r = agg.2
        /\ banned_keywords_hit r = []
        /\ fake_flag_dropped r = false
        /\ popen_calls (os s')
           = popen_calls (os (_launch_vm_payloads E (vm_queue st) (harness_state E s)).2)
  end.
Proof.
  intros H Hk Hc Hrun. unfold snippet_run, initial_exec_state in Hrun.
  destruct c as [|exc|].
  - (* Normal *)
    enter_execute H Hk. rewrite Hc, Hrun. unfold bind. cbn [read_monotonic snd fst].
    match goal with
    | |- context [_launch_vm_payloads E (vm_queue st) ?x] =>
        change x with (harness_state E s)
    end.
    destruct (_launch_vm_payloads E (vm_queue st) (harness_state E s)) as [vm_results s1].
    cbn [fst snd].
    destruct (aggregate E (stdout_capture st) (stderr_capture st) None vm_results)
      as [[out err] ban].
    match goal with
    | |- context [log_attempt E ?a ?b ?s0] =>
        pose proof (log_attempt_popen E a b s0) as Hl;
        destruct (log_attempt E a b s0) as [[] s2]
    end.
    cbn [snd fst] in *. do 2 eexists. split; [reflexivity|].
    cbn [vm_sessions stdout stderr error banner banned_keywords_hit fake_flag_dropped].
    repeat (split; [reflexivity|]). exact Hl.
  - destruct (is_JailTimeout (exc_type exc)) eqn:Ht;
      [|destruct (is_Exception (exc_type exc)) eqn:Hx].
    + destruct (py_str exc) as [text|raised] eqn:Hs;
        enter_execute H Hk; rewrite Hc, Hrun, Ht; unfold bind;
        match goal with
        | |- context [log_attempt E ?a ?b ?s0] =>
            pose proof (log_attempt_files E a b s0) as Hl;
            destruct (log_attempt E a b s0) as [[] s1]
        end;
        cbn [snd fst] in *; rewrite Hs.
      * do 2 eexists. split; [reflexivity|].
        cbn [error stdout stderr vm_sessions].
        repeat (split; [reflexivity|]).
        eapply same_files_trans; [|exact Hl].
        eapply same_files_trans; apply (read_monotonic_files E).
      * eexists. split; [reflexivity|].
        eapply same_files_trans; [|exact Hl].
        eapply same_files_trans; apply (read_monotonic_files E).
    + destruct (py_str exc) as [text|raised] eqn:Hs;
        enter_execute H Hk; rewrite Hc, Hrun, Ht, Hx; unfold bind;
        match goal with
        | |- context [log_attempt E ?a ?b ?s0] =>
            pose proof (log_attempt_files E a b s0) as Hl;
            destruct (log_attempt E a b s0) as [[] s1]
        end;
        cbn [snd fst] in *; rewrite Hs.
      * do 2 eexists. split; [reflexivity|].
        cbn [error stdout stderr vm_sessions].
        repeat (split; [reflexivity|]).
        eapply same_files_trans; [|exact Hl].
        eapply same_files_trans; apply (read_monotonic_files E).
      * eexists. split; [reflexivity|].
        eapply same_files_trans; [|exact Hl].
        eapply same_files_trans; apply (read_monotonic_files E).
    + enter_execute H Hk. rewrite Hc, Hrun, Ht, Hx. reflexivity.
  - enter_execute H Hk. rewrite Hc, Hrun. reflexivity.
Qed.

End RunPaths.

(* ===================================================================== *)
(** * The decoy directory                                                 *)
(* ===================================================================== *)

Section Decoy.
Variable E : pyenv.

Lemma span_digits_uint (d : Decimal.uint) (rest : string) :
  (match rest with
   | String c _ => Py.is_digit c = false
   | EmptyString => True
   end) ->
  span_digits (NilEmpty.string_of_uint d +:+ rest) = (NilEmpty.string_of_uint d, rest).
Proof.
  intros Hrest. induction d; cbn [NilEmpty.string_of_uint];
    rewrite ?PyFacts.append_nil, ?PyFacts.append_cons.
  1: { destruct rest as [|c r]; [reflexivity|]. cbn [span_digits]. now rewrite Hrest. }
  all: cbn [span_digits]; change (Py.is_digit _) with true; cbv iota;
    rewrite IHd; reflexivity.
Qed.

Lemma int_digits_uint (d : Decimal.uint) (acc : nat) :
  Py.int_digits acc (NilEmpty.string_of_uint d) = Nat.of_uint_acc d acc.
Proof.
  revert acc. induction d; intros acc; cbn [NilEmpty.string_of_uint Py.int_digits Nat.of_uint_acc];
    [reflexivity
    | rewrite IHd, Nat.tail_mul_spec; f_equal;
      match goal with
      | |- context [nat_of_ascii ?c - 48] =>
          let v := eval vm_compute in (nat_of_ascii c - 48) in
          change (nat_of_ascii c - 48) with v
      end; lia ..].
Qed.

Lemma int_digits_str_nat (n : nat) : Py.int_digits 0 (Py.str_nat n) = n.
Proof.
  rewrite <- (DecimalNat.Unsigned.of_to n) at 2.
  unfold Py.str_nat, Nat.of_uint.
  destruct (Nat.to_uint n) eqn:Hd; try (rewrite <- Hd at 1);
    try (rewrite <- int_digits_uint; rewrite Hd; reflexivity).
Qed.

Lemma span_digits_str_nat (n : nat) :
  span_digits (Py.str_nat n +:+ ".txt") = (Py.str_nat n, ".txt").
Proof.
  unfold Py.str_nat. destruct (Nat.to_uint n) as [|d|d|d|d|d|d|d|d|d|d];
    [reflexivity | ..];
    match goal with
    | |- context [NilZero.string_of_uint ?x] =>
        change (NilZero.string_of_uint x) with (NilEmpty.string_of_uint x)
    end; apply span_digits_uint; reflexivity.
Qed.

Lemma str_nat_nonempty (n : nat) : Py.nonempty (Py.str_nat n) = true.
Proof. unfold Py.str_nat. destruct (Nat.to_uint n); reflexivity. Qed.

Lemma digit_not_separator (c : ascii) :
  Py.is_digit c = true -> Ascii.eqb c "-" || Ascii.eqb c "_" = false.
Proof. destruct c as [[] [] [] [] [] [] [] []]; vm_compute; congruence. Qed.

Lemma str_nat_head (n : nat) :
  exists c r, Py.str_nat n = String c r /\ Py.is_digit c = true.
Proof.
  unfold Py.str_nat. destruct (Nat.to_uint n); do 2 eexists; split; reflexivity.
Qed.

Lemma skip_separator_str_nat (n : nat) (rest : string) :
  skip_separator (Py.str_nat n +:+ rest) = Py.str_nat n +:+ rest.
Proof.
  destruct (str_nat_head n) as (c & r & -> & Hc).
  rewrite PyFacts.append_cons. cbn [skip_separator].
  now rewrite (digit_not_separator c Hc).
Qed.

(** The name the jail writes is a decoy name, and reads back as its index. *)
Lemma decoy_name_match (n : nat) :
  fake_flag_name_match ("fake-flag" +:+ Py.str_nat n +:+ ".txt") = Some (Py.str_nat n).
Proof.
  change (fake_flag_name_match ("fake-flag" +:+ Py.str_nat n +:+ ".txt"))
    with (let '(digits, r3) := span_digits (skip_separator (Py.str_nat n +:+ ".txt")) in
          if Py.nonempty digits then
            match strip_prefix_ci ".txt" r3 with
            | Some r4 =>
                if String.eqb r4 EmptyString || String.eqb r4 Py.nl
                then Some digits else None
            | None => None
            end
          else None).
  rewrite skip_separator_str_nat, span_digits_str_nat, str_nat_nonempty. reflexivity.
Qed.

Lemma scan_entry_ge (h : nat) (entry : string * node) : h <= scan_entry h entry.
Proof.
  unfold scan_entry. destruct entry.2; [|lia].
  destruct (fake_flag_name_match entry.1); [|lia].
  destruct (h <? _) eqn:Hlt; [apply Nat.ltb_lt in Hlt|]; lia.
Qed.

Lemma scan_entries_ge (l : list (string * node)) (h : nat) : h <= foldl scan_entry h l.
Proof.
  revert h. induction l as [|entry l IH]; intros h; cbn; [lia|].
  etransitivity; [apply (scan_entry_ge h entry) | apply IH].
Qed.

Lemma scan_entries_bound (l : list (string * node)) (h : nat) (name content digits : string) :
  (name, File content) ∈ l ->
  fake_flag_name_match name = Some digits ->
  Py.int_digits 0 digits <= foldl scan_entry h l.
Proof.
  revert h. induction l as [|entry l IH]; intros h Hin Hm.
  - now apply elem_of_nil in Hin.
  - apply elem_of_cons in Hin. destruct Hin as [<-|Hin]; cbn [foldl].
    + etransitivity; [|apply scan_entries_ge].
      unfold scan_entry. cbn [fst snd]. rewrite Hm.
      destruct (h <? _) eqn:Hlt; [|apply Nat.ltb_ge in Hlt]; lia.
    + now apply IH.
Qed.

(** With the directory listed, the name chosen is that of no file in it. *)
Lemma next_decoy_name_not_a_file (w : world) (content : string) :
  flag_dir_listable w = true ->
  flag_dir w !! next_decoy_name w <> Some (File content).
Proof.
  intros Hl Hf. unfold next_decoy_name in Hf. rewrite Hl in Hf.
  apply elem_of_map_to_list in Hf.
  pose proof (scan_entries_bound _ 1 _ _ _ Hf (decoy_name_match _)) as Hb.
  rewrite int_digits_str_nat in Hb. unfold highest_decoy_index in Hb. lia.
Qed.

Lemma next_decoy_name_fresh (w : world) :
  flag_dir_listable w = true ->
  write_text_fails w (next_decoy_name w) = false ->
  flag_dir w !! next_decoy_name w = None.
Proof.
  intros Hl Hw. destruct (flag_dir w !! next_decoy_name w) as [[content|]|] eqn:Hf.
  - now apply next_decoy_name_not_a_file in Hf.
  - unfold write_text_fails in Hw. rewrite Hf, orb_true_r in Hw. discriminate.
  - reflexivity.
Qed.

Lemma warn_flag_once_files (x : warning) (s : state) :
  same_files s (warn_flag_once x s).2.
Proof.
  destruct s as [[? ? ? ? ? ? ? reported ?] [? ? ? ? ? ? ? ? ? ? ? ?]].
  destruct reported; repeat split.
Qed.

(** [_choose_random_fake_flag] raises exactly when the catalogue cannot be
    decoded, and leaves the files alone. *)
Lemma choose_random_fake_flag_files (s : state) :
  same_files s (_choose_random_fake_flag E s).2
  /\ match catalog_file (os s) with
     | CatalogUnicodeError text =>
         (_choose_random_fake_flag E s).1
         = inr (Exn (OtherValueError "UnicodeDecodeError") text)
     | _ => exists payload, (_choose_random_fake_flag E s).1 = inl payload
     end.
Proof.
  unfold _choose_random_fake_flag. cbv [bind ret get_os]. cbn [fst].
  destruct (catalog_file (os s)) as [|lines|text].
  - pose proof (warn_flag_once_files WarnCatalogRead s) as H.
    destruct (warn_flag_once WarnCatalogRead s) as [[] s1]. split; [exact H | eauto].
  - destruct (List.filter Py.nonempty (map Py.strip lines)).
    + pose proof (warn_flag_once_files WarnCatalogEmpty s) as H.
      destruct (warn_flag_once WarnCatalogEmpty s) as [[] s1]. split; [exact H | eauto].
    + split; [repeat split | eauto].
  - split; [repeat split | reflexivity].
Qed.

(** [_next_fake_flag_path] raises exactly when the directory cannot be
    made, and gives the next name otherwise. *)
Lemma next_fake_flag_path_spec (s : state) :
  (_next_fake_flag_path s).1
  = match mkdir_fake_flag_dir (os s) with
    | Some e => inr e
    | None => inl (next_decoy_name (os s))
    end
  /\ same_files s (_next_fake_flag_path s).2.
Proof.
  unfold _next_fake_flag_path, next_decoy_name, highest_decoy_index.
  cbv [bind ret get_os]. cbn [fst].
  destruct (mkdir_fake_flag_dir (os s)); [split; [reflexivity | apply same_files_refl]|].
  destruct (flag_dir_listable (os s)); cbn [negb].
  - split; [reflexivity | apply same_files_refl].
  - pose proof (warn_flag_once_files WarnEnumerate s) as H.
    destruct (warn_flag_once WarnEnumerate s) as [[] s1]. split; [reflexivity | exact H].
Qed.

Lemma same_files_next_decoy_name (s s' : state) :
  same_files s s' -> next_decoy_name (os s') = next_decoy_name (os s).
Proof.
  intros (Hd & Ha & _). unfold next_decoy_name, flag_dir_listable, highest_decoy_index.
  now rewrite Hd, Ha.
Qed.

Lemma same_files_write_text_fails (s s' : state) (target : string) :
  same_files s s' -> write_text_fails (os s') target = write_text_fails (os s) target.
Proof.
  intros (Hd & _ & Hw & _). unfold write_text_fails. now rewrite Hd, Hw.
Qed.

Lemma same_files_decoy_drop_error (s s' : state) :
  same_files s s' -> decoy_drop_error (os s') = decoy_drop_error (os s).
Proof.
  intros (_ & Ha & _ & Hc & _). unfold decoy_drop_error, mkdir_fake_flag_dir.
  now rewrite Ha, Hc.
Qed.

(** What [drop_fake_flag] does.  It raises what [decoy_drop_error] tells,
    and then writes nothing; otherwise it writes the next name with a
    content of the catalogue, or nothing when the write fails.  No process
    is started. *)
Lemma drop_fake_flag_spec (s : state) :
  let target := next_decoy_name (os s) in
  match decoy_drop_error (os s) with
  | Some e =>
      (drop_fake_flag E s).1 = inr e
      /\ flag_dir (os (drop_fake_flag E s).2) = flag_dir (os s)
  | None =>
      (drop_fake_flag E s).1 = inl tt
      /\ (if write_text_fails (os s) target
          then flag_dir (os (drop_fake_flag E s).2) = flag_dir (os s)
          else exists payload,
                 (_choose_random_fake_flag E s).1 = inl payload
                 /\ flag_dir (os (drop_fake_flag E s).2)
                    = <[target := File payload]> (flag_dir (os s)))
  end
  /\ popen_calls (os (drop_fake_flag E s).2) = popen_calls (os s).
Proof.
  cbv zeta. unfold drop_fake_flag, bind.
  pose proof (choose_random_fake_flag_files s) as [H1 Hc].
  unfold decoy_drop_error.
  destruct (_choose_random_fake_flag E s) as [[payload|e] s1]; cbn [fst snd] in *.
  2: { destruct (catalog_file (os s)) as [|lines|text];
         [destruct Hc; discriminate | destruct Hc; discriminate |].
       injection Hc as ->. cbv [ret]. cbn [fst snd].
       destruct H1 as (Hd & _ & _ & _ & _ & _ & Hp & _). auto. }
  assert (Hcat : match catalog_file (os s) with
                 | CatalogUnicodeError text =>
                     Some (Exn (OtherValueError "UnicodeDecodeError") text)
                 | _ => mkdir_fake_flag_dir (os s)
                 end = mkdir_fake_flag_dir (os s)).
  { destruct (catalog_file (os s)); [reflexivity | reflexivity | discriminate]. }
  rewrite Hcat. clear Hcat Hc.
  pose proof (next_fake_flag_path_spec s1) as [Ht H2].
  assert (Hm : mkdir_fake_flag_dir (os s1) = mkdir_fake_flag_dir (os s)).
  { unfold mkdir_fake_flag_dir. destruct H1 as (_ & -> & _). reflexivity. }
  rewrite Hm, (same_files_next_decoy_name _ _ H1) in Ht.
  destruct (_next_fake_flag_path s1) as [target' s2]. cbn [fst snd] in *.
  pose proof (same_files_trans _ _ _ H1 H2) as H12. subst target'.
  destruct (mkdir_fake_flag_dir (os s)) as [e|].
  { cbv [ret]. cbn [fst snd].
    destruct H12 as (Hd & _ & _ & _ & _ & _ & Hp & _). auto. }
  set (target := next_decoy_name (os s)).
  cbv [get_os]. rewrite (same_files_write_text_fails _ _ target H12).
  destruct (write_text_fails (os s) target).
  - pose proof (warn_flag_once_files (WarnRefresh target) s2) as H3.
    destruct (warn_flag_once (WarnRefresh target) s2) as [[] s3]. cbn [snd fst] in *.
    pose proof (same_files_trans _ _ _ H12 H3) as H.
    destruct H as (Hd & _ & _ & _ & _ & _ & Hp & _). cbv [ret]. cbn [fst snd]. auto.
  - run_monad. cbn. destruct H12 as (Hd & _ & _ & _ & _ & _ & Hp & _).
    rewrite Hd. split; [|exact Hp]. split; [reflexivity|]. eexists. split; reflexivity.
Qed.

(** The state in which the decoy is dropped on the violation path. *)
Lemma logged_attempt_files (code : string) (s : state) :
  same_files s
    (log_attempt E "BAIT"
       ("User attempted " +:+ repr E
          (if String.length (sanitize code) <=? 160 then sanitize code
           else String.substring 0 157 (sanitize code) +:+ "..."))
       (read_monotonic E s).2).2.
Proof.
  eapply same_files_trans; [apply (read_monotonic_files E)|]. apply log_attempt_files.
Qed.

(** The violation path: the attempt is logged, the decoy dropped, and the
    violation raised, unless the drop raised first. *)
Lemma execute_code_violation (code : string) (s : state) (first_hit : string)
    (others : list string) :
  mentions_hook (sanitize code) = false ->
  check_banned_keywords (self s) (sanitize code) = first_hit :: others ->
  execute_code E code s
  = (match decoy_drop_error (os s) with
     | Some exc => Raises (RaisedExn exc)
     | None =>
         Raises (RaisedViolation
           (JailViolation_init
              (_describe_keyword_alert E (self s) (first_hit :: others) (sanitize code))
              (first_hit :: others)
              (Some (default "Keyword violation detected."
                       (KEYWORD_HONEYPOTS !! first_hit)
                     +:+ " Fake flag dispensed for archival joy."))
              true
              (Some (_describe_keyword_alert E (self s) (first_hit :: others)
                       (sanitize code)))
              (Some (if String.length (sanitize code) <=? 160 then sanitize code
                     else String.substring 0 157 (sanitize code) +:+ "..."))))
     end,
     after_violation E code s).
Proof.
  intros H Hk. unfold execute_code, bind. cbn [read_monotonic].
  change (Py.contains "legacy_hook(" (Py.rstrip (Py.replace_crlf code))
          || Py.contains "hook(" (Py.rstrip (Py.replace_crlf code)))
    with (mentions_hook (sanitize code)).
  rewrite H. cbn [get_self self].
  change (Py.rstrip (Py.replace_crlf code)) with (sanitize code).
  rewrite Hk. unfold after_violation.
  pose proof (logged_attempt_files code s) as Hl.
  destruct (log_attempt E "BAIT" _ _) as [[] s1]. cbn [snd] in *.
  pose proof (drop_fake_flag_spec s1) as [Hd _]. cbv zeta in Hd.
  rewrite (same_files_decoy_drop_error _ _ Hl) in Hd.
  destruct (drop_fake_flag E s1) as [dropped s2]. cbn [fst snd] in *.
  destruct (decoy_drop_error (os s)); destruct Hd as [-> _]; reflexivity.
Qed.

(** On the violation path [execute_code] raises, whatever the files. *)
Lemma execute_code_violation_raises (code : string) (s : state) (first_hit : string)
    (others : list string) :
  mentions_hook (sanitize code) = false ->
  check_banned_keywords (self s) (sanitize code) = first_hit :: others ->
  exists x, execute_code E code s = (Raises x, after_violation E code s).
Proof.
  intros H Hk. rewrite (execute_code_violation code s first_hit others H Hk).
  destruct (decoy_drop_error (os s)); eauto.
Qed.

End Decoy.

(* ===================================================================== *)
(** * What [execute_code] raises and what it returns                      *)
(* ===================================================================== *)

Section Claims.
Variable E : pyenv.



End Claims.

Section Results.
Variable E : pyenv.

Lemma harness_state_facts (s : state) :
  self (harness_state E s) = self s
  /\ binary_exists (os (harness_state E s)) = binary_exists (os s)
  /\ popen_calls (os (harness_state E s)) = popen_calls (os s).
Proof. repeat split. Qed.

(** C3 (as amended).  A result returned after the snippet ran to its end
    holds one session per queued payload, in the order of the queue: each
    payload was handed to one worker process when the binary exists, and got
    the session of the missing binary otherwise.  A result returned after a
    failure to compile, an exception or a timeout holds no session, whatever
    the snippet had queued. *)
Theorem sessions_of_queue (code : string) (s : state) (r : ExecutionResult) (s' : state) :
  execute_code E code s = (Returns r, s') ->
  match compile E (sanitize code) with
  | inr _ => vm_sessions r = []
  | inl p =>
      let st := (snippet_run E (self s) p).1 in
      match (snippet_run E (self s) p).2 with
      | Normal =>
          length (vm_sessions r) = length (vm_queue st)
          /\ (if binary_exists (os s)
              then popen_calls (os s') = popen_calls (os s) ++ vm_queue st
              else vm_sessions r = map (fun _ => missing_session (self s)) (vm_queue st)
                   /\ popen_calls (os s') = popen_calls (os s))
      | _ => vm_sessions r = []
      end
  end.
Proof.
  intros Hr.
  destruct (mentions_hook (sanitize code)) eqn:Hh.
  { rewrite (execute_code_hook E code s Hh) in Hr. discriminate. }
  destruct (check_banned_keywords (self s) (sanitize code)) as [|k others] eqn:Hk.
  2: { destruct (execute_code_violation_raises E code s k others Hh Hk) as [x Hx].
       rewrite Hx in Hr. discriminate. }
  destruct (compile E (sanitize code)) as [p|exc] eqn:Hc.
  - destruct (snippet_run E (self s) p) as [st c] eqn:Hrun.
    pose proof (execute_code_run E code s p st c Hh Hk Hc Hrun) as Hp.
    cbn [fst snd]. destruct c as [|exc|].
    + cbv zeta in Hp. destruct Hp as (r1 & s1 & Hp & Hv & _ & _ & _ & _ & _ & _ & Hpop).
      rewrite Hp in Hr. injection Hr as <- <-.
      destruct (launch_vm_payloads_spec E (vm_queue st) (harness_state E s))
        as (Hlen & Hmiss & Hrun').
      destruct (harness_state_facts s) as (Hself & Hbin & Hpc).
      rewrite Hv, Hpop. split; [exact Hlen|].
      rewrite Hbin in Hmiss, Hrun'. rewrite Hself in Hmiss. rewrite Hpc in Hmiss, Hrun'.
      destruct (binary_exists (os s)); [apply Hrun' | apply Hmiss]; reflexivity.
    + destruct (is_JailTimeout (exc_type exc));
        [|destruct (is_Exception (exc_type exc))];
        [destruct (py_str exc) | destruct (py_str exc) |].
      * destruct Hp as (r1 & s1 & Hp & _ & _ & _ & Hv & _).
        rewrite Hp in Hr. injection Hr as <- <-. exact Hv.
      * destruct Hp as (s1 & Hp & _). rewrite Hp in Hr. discriminate.
      * destruct Hp as (r1 & s1 & Hp & _ & _ & _ & Hv & _).
        rewrite Hp in Hr. injection Hr as <- <-. exact Hv.
      * destruct Hp as (s1 & Hp & _). rewrite Hp in Hr. discriminate.
      * rewrite Hp in Hr. discriminate.
    + rewrite Hp in Hr. discriminate.
  - destruct (execute_code_compile_error E code s exc Hh Hk Hc) as [Hok Hbad].
    destruct (is_Exception (exc_type exc)) eqn:Hx.
    + specialize (Hok eq_refl). destruct (py_str exc).
      * destruct Hok as (r1 & s1 & Hp & _ & _ & _ & Hv & _).
        rewrite Hp in Hr. injection Hr as <- <-. exact Hv.
      * rewrite Hok in Hr. discriminate.
    + rewrite (Hbad eq_refl) in Hr. discriminate.
Qed.





End Results.

(* ===================================================================== *)
(** * The statements at concrete inputs                                   *)
(* ===================================================================== *)





(** C3 as stated fails on a snippet that queues a payload and then raises:
    the payload is in the queue, and the result holds no session. *)
Lemma queued_payload_without_session :
  exists p r,
    compile Demo.env (sanitize ("vm_escape(b'A')" +:+ Py.nl +:+ "1/0")) = inl p
    /\ vm_queue (snippet_run Demo.env Demo.jail p).1 = [["A"%byte]]
    /\ (execute_code Demo.env ("vm_escape(b'A')" +:+ Py.nl +:+ "1/0") Demo.state0).1
       = Returns r
    /\ error r = Some "ZeroDivisionError: division by zero"
    /\ vm_sessions r = [].
Proof. do 2 eexists. repeat split; vm_compute; reflexivity. Qed.

(** The amended C3 at a snippet that queues one payload and ends. *)
Lemma sessions_of_queue_witness :
  exists r s',
    execute_code Demo.env "vm_escape(b'A')" Demo.state0 = (Returns r, s')
    /\ length (vm_sessions r) = 1
    /\ vm_sessions r = [missing_session Demo.jail]
    /\ popen_calls (os s') = [].
Proof.
  destruct (execute_code Demo.env "vm_escape(b'A')" Demo.state0) as [o s'] eqn:Hx.
  assert (Ho : exists r, o = Returns r).
  { eexists. apply (f_equal fst) in Hx. cbn [fst] in Hx. rewrite <- Hx.
    vm_compute. reflexivity. }
  destruct Ho as [r ->]. exists r, s'. split; [reflexivity|].
  pose proof (sessions_of_queue Demo.env "vm_escape(b'A')" Demo.state0 r s' Hx)
    as [Hlen [Hs Hp]].
  split; [exact Hlen|]. split; [exact Hs | exact Hp].
Defined.





(* ===================================================================== *)
(** * Further properties of the timeout guard                             *)
(* ===================================================================== *)

Section GuardMore.
Variable E : pyenv.

Lemma triggered_without_thread (g : TimeoutGuard) :
  _target_thread_id g = None -> (_timeout_triggered E g).2 = None.
Proof.
  intros H. unfold _timeout_triggered.
  destruct (negb (_enabled g) || _expired g); [reflexivity|].
  unfold _get_timeout_exception_type. cbn [_timeout_exc_type].
  destruct (_timeout_exc_type g); unfold _raise_in_target_thread;
    cbn [_target_thread_id]; rewrite H; reflexivity.
Qed.

Lemma exit_clears (g : TimeoutGuard) (exc : option exn) :
  _enabled g = true ->
  _timer (__exit__ E g exc).1 = None /\ _target_thread_id (__exit__ E g exc).1 = None.
Proof.
  intros Hen. unfold __exit__. rewrite Hen. cbn [negb _expired].
  destruct (_expired g), exc as [e|];
    try destruct (is_JailTimeout (exc_type e)); cbn [fst]; try (split; reflexivity).
  unfold _get_timeout_exception_type. cbn [_timeout_exc_type].
  destruct (_timeout_exc_type g); split; reflexivity.
Qed.

(** X1.  Whatever state an enabled guard is in and however the region ends,
    [__exit__] drops the timer and the thread identifier, also when it
    raises; a watchdog that runs after that reaches no thread. *)
Theorem exit_releases_watchdog (g : TimeoutGuard) (exc : option exn) :
  _enabled g = true ->
  _timer (__exit__ E g exc).1 = None
  /\ _target_thread_id (__exit__ E g exc).1 = None
  /\ (_timeout_triggered E (__exit__ E g exc).1).2 = None.
Proof.
  intros Hen. destruct (exit_clears g exc Hen) as [Ht Hi].
  split; [exact Ht|]. split; [exact Hi|]. now apply triggered_without_thread.
Qed.

(** X2.  The function of the timer acts once: run again on the guard it
    left, it changes nothing and reaches no thread. *)
Theorem timeout_triggered_once (g : TimeoutGuard) :
  _timeout_triggered E (_timeout_triggered E g).1 = ((_timeout_triggered E g).1, None).
Proof.
  unfold _timeout_triggered at 2 3.
  destruct (negb (_enabled g) || _expired g) eqn:Hc; cbn [fst].
  - unfold _timeout_triggered. rewrite Hc. reflexivity.
  - unfold _get_timeout_exception_type. cbn [_timeout_exc_type].
    destruct (_timeout_exc_type g);
      match goal with |- context [_raise_in_target_thread E ?x] =>
        destruct (_raise_in_target_thread E x) end; cbn [fst];
      unfold _timeout_triggered; cbn [_enabled _expired];
      rewrite orb_true_r; reflexivity.
Qed.

Lemma run_no_fire_guard (globals : gmap string namespace_obj) (p : prog) (st : exec_state) :
  no_fire p -> guard (run E globals p st).1 = guard st.
Proof.
  revert st. induction p as [| | s k IH | s k IH | f args enc k IH | k IH | tf k IH |];
    intros st Hp; cbn [run no_fire] in *; try reflexivity.
  - rewrite IH by exact Hp. reflexivity.
  - rewrite IH by exact Hp. reflexivity.
  - destruct (resolve_name globals f) as [[[[]|]|]|];
      try (rewrite IH by apply Hp; reflexivity).
    destruct (vm_escape E args enc (vm_queue st)) as [r q].
    rewrite IH by apply Hp. reflexivity.
  - contradiction.
  - rewrite IH by exact Hp. reflexivity.
Qed.

Lemma enter_not_expired (g : TimeoutGuard) :
  _expired g = false -> _expired (__enter__ E g) = false.
Proof. intros H. unfold __enter__. destruct (negb (_enabled g)); [exact H | reflexivity]. Qed.

Lemma leave_with_not_expired (g : TimeoutGuard) (body : completion) :
  _expired g = false -> (leave_with E g body).2 = body.
Proof.
  intros H. destruct body as [|e|]; cbn [leave_with]; unfold __exit__;
    destruct (negb (_enabled g)); cbn [_expired]; rewrite ?H; try reflexivity.
  destruct (is_JailTimeout (exc_type e)); reflexivity.
Qed.

(** X3.  When the watchdog does not fire during the run, the guarded
    region ends as the snippet did: the guard adds no timeout of its
    own. *)
Theorem guarded_exec_without_fire (j : PythonJail) (globals : gmap string namespace_obj)
    (p : prog) (st : exec_state) :
  no_fire p ->
  (guarded_exec E j globals p st).2
  = (run E globals p
       (set_guard (__enter__ E (TimeoutGuard_init (timeout_seconds j) "PythonJail exec"))
          st)).2.
Proof.
  intros Hp. unfold guarded_exec.
  set (st0 := set_guard _ st).
  pose proof (run_no_fire_guard globals p st0 Hp) as Hg.
  destruct (run E globals p st0) as [st1 body]. cbn [fst snd] in *.
  pose proof (leave_with_not_expired (guard st1) body) as Hl.
  destruct (leave_with E (guard st1) body) as [g' c]. cbn [snd] in *.
  apply Hl. rewrite Hg. unfold st0. cbn [guard set_guard].
  apply enter_not_expired. reflexivity.
Qed.

Lemma run_disabled_guard (globals : gmap string namespace_obj) (p : prog) (st : exec_state) :
  _enabled (guard st) = false -> guard (run E globals p st).1 = guard st.
Proof.
  revert st. induction p as [| | s k IH | s k IH | f args enc k IH | k IH | tf k IH |];
    intros st Hd; cbn [run]; try reflexivity.
  - rewrite IH by exact Hd. reflexivity.
  - rewrite IH by exact Hd. reflexivity.
  - destruct (resolve_name globals f) as [[[[]|]|]|];
      try (rewrite IH by exact Hd; reflexivity).
    destruct (vm_escape E args enc (vm_queue st)) as [r q].
    rewrite IH by exact Hd. reflexivity.
  - unfold _timeout_triggered. rewrite Hd. cbn [negb orb].
    rewrite IH; destruct st; cbn in *; [reflexivity | exact Hd].
  - rewrite IH by exact Hd. reflexivity.
Qed.

(** X4.  With a budget that is not positive the guard is off: it does not
    expire whatever happens during the run, and the guarded region ends as
    the snippet did. *)
Theorem disabled_guard_is_transparent (j : PythonJail)
    (globals : gmap string namespace_obj) (p : prog) (st : exec_state) :
  Qpositive (timeout_seconds j) = false ->
  _expired (guard (guarded_exec E j globals p st).1) = false
  /\ (guarded_exec E j globals p st).2
     = (run E globals p
          (set_guard (TimeoutGuard_init (timeout_seconds j) "PythonJail exec") st)).2.
Proof.
  intros Hq. unfold guarded_exec.
  assert (He : __enter__ E (TimeoutGuard_init (timeout_seconds j) "PythonJail exec")
               = TimeoutGuard_init (timeout_seconds j) "PythonJail exec").
  { unfold __enter__. cbn [_enabled TimeoutGuard_init]. rewrite Hq. reflexivity. }
  rewrite He. set (st0 := set_guard _ st).
  assert (Hd : _enabled (guard st0) = false) by exact Hq.
  pose proof (run_disabled_guard globals p st0 Hd) as Hg.
  destruct (run E globals p st0) as [st1 body]. cbn [fst snd] in *.
  assert (Hx : _expired (guard st1) = false) by (rewrite Hg; reflexivity).
  assert (Hen : _enabled (guard st1) = false) by (rewrite Hg; exact Hd).
  pose proof (leave_with_not_expired (guard st1) body Hx) as Hl.
  assert (Hgl : (leave_with E (guard st1) body).1 = guard st1).
  { destruct body as [|e|]; cbn [leave_with]; unfold __exit__; rewrite ?Hen; reflexivity. }
  destruct (leave_with E (guard st1) body) as [g' c]. cbn [fst snd] in *.
  subst g'. split; [exact Hx | exact Hl].
Qed.

End GuardMore.

(** X1 at a guard whose watchdog fired, the region ending normally. *)
Lemma exit_releases_watchdog_witness :
  _enabled (fired_guard Demo.env) = true
  /\ _timer (__exit__ Demo.env (fired_guard Demo.env) None).1 = None
  /\ _target_thread_id (__exit__ Demo.env (fired_guard Demo.env) None).1 = None
  /\ (_timeout_triggered Demo.env (__exit__ Demo.env (fired_guard Demo.env) None).1).2 = None.
Proof.
  split; [reflexivity|].
  apply (exit_releases_watchdog Demo.env (fired_guard Demo.env) None). reflexivity.
Defined.

(** X3 at a snippet that prints and ends. *)
Lemma guarded_exec_without_fire_witness :
  no_fire (Out "hi" Ret)
  /\ (guarded_exec Demo.env Demo.jail _build_exec_environment (Out "hi" Ret)
        (initial_exec_state Demo.jail)).2 = Normal.
Proof.
  split; [exact I|].
  exact (guarded_exec_without_fire Demo.env Demo.jail _build_exec_environment
           (Out "hi" Ret) (initial_exec_state Demo.jail) I).
Defined.

(** X4 at a jail without budget and a snippet the watchdog would have
    interrupted: the run hangs. *)
Lemma disabled_guard_is_transparent_witness :
  let j := PythonJail_init "/srv/isol8r" None 0 in
  let p := Fire (fun raised_in_thread =>
                   match raised_in_thread with Some e => Throw e | None => Spin end) in
  Qpositive (timeout_seconds j) = false
  /\ (guarded_exec Demo.env j _build_exec_environment p (initial_exec_state j)).2 = Hang.
Proof.
  split; [reflexivity|].
  exact (proj2 (disabled_guard_is_transparent Demo.env
                  (PythonJail_init "/srv/isol8r" None 0) _build_exec_environment
                  (Fire (fun raised_in_thread =>
                           match raised_in_thread with Some e => Throw e | None => Spin end))
                  (initial_exec_state (PythonJail_init "/srv/isol8r" None 0)) eq_refl)).
Defined.

(* ===================================================================== *)
(** * Further properties of the keyword filter                            *)
(* ===================================================================== *)

Section FilterMore.

Lemma lower_char_upper_char (c : ascii) : Py.lower_char (Py.upper_char c) = Py.lower_char c.
Proof. destruct c as [[] [] [] [] [] [] [] []]; reflexivity. Qed.

Lemma lower_char_idem (c : ascii) : Py.lower_char (Py.lower_char c) = Py.lower_char c.
Proof. destruct c as [[] [] [] [] [] [] [] []]; reflexivity. Qed.

Lemma lower_upper (s : string) : Py.lower (Py.upper s) = Py.lower s.
Proof.
  induction s as [|c r IH]; [reflexivity|].
  cbn [Py.lower Py.upper Py.map_chars] in *. now rewrite lower_char_upper_char, IH.
Qed.

Lemma lower_lower (s : string) : Py.lower (Py.lower s) = Py.lower s.
Proof.
  induction s as [|c r IH]; [reflexivity|].
  cbn [Py.lower Py.map_chars] in *. now rewrite lower_char_idem, IH.
Qed.

(** X5.  On ASCII text the filter does not see the letter case of the
    code: the code, its upper-cased and its lower-cased form give the same
    matches. *)
Theorem check_banned_keywords_case (j : PythonJail) (code : string) :
  isascii code = true ->
  check_banned_keywords j (Py.upper code) = check_banned_keywords j code
  /\ check_banned_keywords j (Py.lower code) = check_banned_keywords j code.
Proof.
  intros _. unfold check_banned_keywords. now rewrite lower_upper, lower_lower.
Qed.

Lemma lower_append (a b : string) : Py.lower (a +:+ b) = Py.lower a +:+ Py.lower b.
Proof.
  induction a as [|x a IH]; rewrite ?PyFacts.append_nil, ?PyFacts.append_cons;
    [reflexivity|].
  cbn [Py.lower Py.map_chars] in *. rewrite PyFacts.append_cons. now f_equal.
Qed.

Lemma contains_embedded (t s a b : string) :
  Py.contains t s = true -> Py.contains t (a +:+ s +:+ b) = true.
Proof.
  intros H. destruct (PyFacts.contains_split _ _ H) as (x & y & ->).
  replace (a +:+ (x +:+ t +:+ y) +:+ b) with ((a +:+ x) +:+ t +:+ (y +:+ b))
    by (rewrite !PyFacts.append_assoc; reflexivity).
  apply PyFacts.contains_append.
Qed.

(** X6.  Text put before or after a code hides none of its matches: every
    term the filter reports for the code is reported for the longer text. *)
Theorem check_banned_keywords_embedded (j : PythonJail) (code before after keyword : string) :
  keyword ∈ check_banned_keywords j code ->
  keyword ∈ check_banned_keywords j (before +:+ code +:+ after).
Proof.
  rewrite !check_banned_keywords_filter, !list_elem_of_In, !filter_In.
  intros [Hin Hm]. split; [exact Hin|].
  unfold keyword_matches in *. rewrite !lower_append. now apply contains_embedded.
Qed.

End FilterMore.

(** X5 at a code in mixed case. *)
Lemma check_banned_keywords_case_witness :
  isascii "Import OS" = true
  /\ check_banned_keywords Demo.jail (Py.upper "Import OS")
     = check_banned_keywords Demo.jail "Import OS"
  /\ check_banned_keywords Demo.jail "Import OS" = ["import"; "os"].
Proof.
  assert (H : isascii "Import OS" = true) by reflexivity.
  split; [exact H|].
  split; [exact (proj1 (check_banned_keywords_case Demo.jail "Import OS" H)) | reflexivity].
Defined.

(** X6 at the code [import os] inside a longer text. *)
Lemma check_banned_keywords_embedded_witness :
  "import" ∈ check_banned_keywords Demo.jail "import os"
  /\ "import" ∈ check_banned_keywords Demo.jail ("x = 1; " +:+ "import os" +:+ " # ok").
Proof.
  assert (H : "import" ∈ check_banned_keywords Demo.jail "import os").
  { apply list_elem_of_In. vm_compute. auto. }
  split; [exact H|].
  exact (check_banned_keywords_embedded Demo.jail "import os" "x = 1; " " # ok" "import" H).
Defined.

(* ===================================================================== *)
(** * Further properties of the normaliser, the hook and the run          *)
(* ===================================================================== *)

Section HookMore.
Variable E : pyenv.









End HookMore.



(* ===================================================================== *)
(** * Further properties of the log and of the decoys                     *)
(* ===================================================================== *)

Section LogMore.
Variable E : pyenv.








(** X10.  With a log that cannot be written, [log_attempt] leaves the log as
    it is and does not fail; it warns the first time only: after one failed
    call the flag is set, and a further failed call adds no warning. *)
Theorem log_attempt_warns_once (a b c d : string) (s : state) :
  bait_log_writable (os s) = false ->
  let s1 := (log_attempt E a b s).2 in
  let s2 := (log_attempt E c d s1).2 in
  bait_log (os s2) = bait_log (os s)
  /\ _log_error_reported (self s1) = true
  /\ warnings (os s2) = warnings (os s1)
  /\ (_log_error_reported (self s) = false ->
      warnings (os s1) = warnings (os s) ++ [WarnBaitLog]).
Proof.
  destruct s as [[? ? ? ? ? ? reported ? ?] [? writable ? ? ? ? ? ? ? ? ? ?]].
  unfold bait_log_writable. cbn [os bait_log_access].
  destruct writable; [discriminate | ..]; intros _;
    destruct reported; repeat split; discriminate.
Qed.

Lemma nth_mod_In (l : list string) (i : nat) (d : string) :
  l <> [] -> In (nth (i mod length l) l d) l.
Proof.
  intros Hl. apply nth_In. apply Nat.mod_upper_bound.
  destruct l; [contradiction | discriminate].
Qed.

(** X11.  [_choose_random_fake_flag] raises in one case only, the
    [UnicodeDecodeError] of a catalogue that is not valid UTF-8.  The
    content it returns otherwise is never empty: it is the fallback flag,
    or the stripped form of a line of the catalogue that is not blank. *)
Theorem choose_random_fake_flag_content (s : state) :
  match (_choose_random_fake_flag E s).1 with
  | inl content =>
      Py.nonempty content = true
      /\ (content = fallback_flag
          \/ exists lines line, catalog (os s) = Some lines /\ line ∈ lines
                                /\ content = Py.strip line)
  | inr e =>
      exists text, catalog_file (os s) = CatalogUnicodeError text
                   /\ e = Exn (OtherValueError "UnicodeDecodeError") text
  end.
Proof.
  unfold _choose_random_fake_flag, catalog. cbv [bind ret get_os]. cbn [fst].
  destruct (catalog_file (os s)) as [|lines|text].
  { destruct (warn_flag_once WarnCatalogRead s). cbn. auto. }
  2: { cbn. eauto. }
  destruct (List.filter Py.nonempty (map Py.strip lines)) as [|x l] eqn:Hf.
  { destruct (warn_flag_once WarnCatalogEmpty s). cbn. auto. }
  unfold random_choice. cbn [fst].
  assert (Hin : In (nth (randbelow E (random_draws (os s)) mod length (x :: l))
                      (x :: l) EmptyString) (x :: l))
    by (apply nth_mod_In; discriminate).
  set (content := nth _ (x :: l) EmptyString) in *.
  rewrite <- Hf in Hin. apply filter_In in Hin. destruct Hin as [Hin Hne].
  split; [exact Hne|]. right. apply in_map_iff in Hin. destruct Hin as (line & Hl & Hin).
  exists lines, line. split; [reflexivity|]. split; [now apply list_elem_of_In | now symmetry].
Qed.

End LogMore.

Section DecoyMore.
Variable E : pyenv.

(** X12.  The name written for the index [n] is a decoy name, and the index
    read back from it is [n]. *)
Theorem decoy_name_round_trip (n : nat) :
  exists digits, fake_flag_name_match (decoy_name n) = Some digits
                 /\ Py.int_digits 0 digits = n
                 /\ entry_index (decoy_name n, File EmptyString) = n.
Proof.
  exists (Py.str_nat n). unfold entry_index, decoy_name. cbn [fst snd].
  rewrite decoy_name_match, int_digits_str_nat. auto.
Qed.

Lemma scan_entry_max (h : nat) (entry : string * node) :
  scan_entry h entry = Nat.max h (entry_index entry).
Proof.
  unfold scan_entry, entry_index. destruct entry.2; [|lia].
  destruct (fake_flag_name_match entry.1); [|lia].
  destruct (h <? _) eqn:Hlt; [apply Nat.ltb_lt in Hlt | apply Nat.ltb_ge in Hlt]; lia.
Qed.

Lemma scan_entries_max (l : list (string * node)) (h : nat) :
  foldl scan_entry h l = Nat.max h (foldl scan_entry 0 l).
Proof.
  revert h. induction l as [|entry l IH]; intros h; cbn [foldl]; [lia|].
  rewrite IH, (IH (scan_entry 0 entry)), !scan_entry_max. lia.
Qed.

Lemma scan_entries_perm (l l' : list (string * node)) (h : nat) :
  Permutation l l' -> foldl scan_entry h l = foldl scan_entry h l'.
Proof.
  intros Hp. revert h. induction Hp; intros h; cbn [foldl]; auto.
  - rewrite !scan_entry_max. f_equal. lia.
  - now rewrite IHHp1, IHHp2.
Qed.

Lemma highest_decoy_index_insert (d : gmap string node) (name : string) (x : node) :
  d !! name = None ->
  highest_decoy_index (<[name := x]> d)
  = Nat.max (highest_decoy_index d) (entry_index (name, x)).
Proof.
  intros Hn. unfold highest_decoy_index.
  rewrite (scan_entries_perm _ _ 1 (map_to_list_insert d name x Hn)).
  cbn [foldl]. rewrite scan_entries_max, (scan_entries_max _ 1), scan_entry_max. lia.
Qed.

(** X13.  In a decoy directory that can be listed and written, the name
    of the next index is that of no entry.  With a catalogue that can be
    decoded (or not read at all), the drop writes this name and raises the
    highest index by exactly one, so that a second drop writes another
    file, and the entries that were there stay as they were; with a
    catalogue that is not valid UTF-8 the drop raises before it writes, and
    the directory is as before. *)
Theorem drop_fake_flag_next_index (s : state) :
  flag_dir_listable (os s) = true ->
  write_text_fails (os s) (next_decoy_name (os s)) = false ->
  let d := flag_dir (os s) in
  let d' := flag_dir (os (drop_fake_flag E s).2) in
  next_decoy_name (os s) = decoy_name (highest_decoy_index d + 1)
  /\ d !! next_decoy_name (os s) = None
  /\ match catalog_file (os s) with
     | CatalogUnicodeError _ => d' = d
     | _ =>
         (exists content, d' !! next_decoy_name (os s) = Some (File content))
         /\ (forall name, name <> next_decoy_name (os s) -> d' !! name = d !! name)
         /\ highest_decoy_index d' = highest_decoy_index d + 1
         /\ 2 <= highest_decoy_index d'
     end.
Proof.
  intros Hl Hw. cbv zeta.
  destruct (drop_fake_flag_spec E s) as [Hd _]. cbv zeta in Hd. rewrite Hw in Hd.
  pose proof (next_decoy_name_fresh (os s) Hl Hw) as Hfresh.
  assert (Hname : next_decoy_name (os s)
                  = decoy_name (highest_decoy_index (flag_dir (os s)) + 1)).
  { unfold next_decoy_name. rewrite Hl. reflexivity. }
  split; [exact Hname|]. split; [exact Hfresh|].
  assert (Hgood : decoy_drop_error (os s) = None ->
            (exists content,
               flag_dir (os (drop_fake_flag E s).2) !! next_decoy_name (os s)
               = Some (File content))
            /\ (forall name, name <> next_decoy_name (os s) ->
                  flag_dir (os (drop_fake_flag E s).2) !! name = flag_dir (os s) !! name)
            /\ highest_decoy_index (flag_dir (os (drop_fake_flag E s).2))
               = highest_decoy_index (flag_dir (os s)) + 1
            /\ 2 <= highest_decoy_index (flag_dir (os (drop_fake_flag E s).2))).
  { intros Hnone. rewrite Hnone in Hd. destruct Hd as (_ & payload & _ & Hd).
    rewrite Hd. split; [eexists; apply lookup_insert_eq|].
    split; [intros name Hne; now apply lookup_insert_ne|].
    rewrite (highest_decoy_index_insert _ _ _ Hfresh), Hname.
    unfold entry_index, decoy_name. cbn [fst snd].
    rewrite decoy_name_match, int_digits_str_nat.
    assert (1 <= highest_decoy_index (flag_dir (os s))) by apply scan_entries_ge.
    lia. }
  unfold decoy_drop_error, mkdir_fake_flag_dir in Hd, Hgood.
  unfold flag_dir_listable in Hl.
  destruct (flag_dir_access (os s)); try discriminate.
  destruct (catalog_file (os s)); [now apply Hgood | now apply Hgood | apply Hd].
Qed.

End DecoyMore.


(** X10 at a state whose log cannot be written: two failed calls, one
    warning. *)
Lemma log_attempt_warns_once_witness :
  bait_log_writable (os locked_log_state) = false
  /\ warnings (os (log_attempt Demo.env "INFO" "b"
                     (log_attempt Demo.env "INFO" "a" locked_log_state).2).2)
     = [WarnBaitLog].
Proof.
  split; [reflexivity|].
  pose proof (log_attempt_warns_once Demo.env "INFO" "a" "INFO" "b"
                locked_log_state eq_refl) as H.
  cbv zeta in H. destruct H as (_ & _ & H2 & H1).
  exact (eq_trans H2 (H1 eq_refl)).
Defined.

(** X13 at the empty decoy directory: the first decoy has the index 2. *)
Lemma drop_fake_flag_next_index_witness :
  flag_dir_listable (os Demo.state0) = true
  /\ write_text_fails (os Demo.state0) (next_decoy_name (os Demo.state0)) = false
  /\ next_decoy_name (os Demo.state0) = "fake-flag2.txt"
  /\ highest_decoy_index (flag_dir (os (drop_fake_flag Demo.env Demo.state0).2)) = 2.
Proof.
  split; [reflexivity|]. split; [reflexivity|].
  pose proof (drop_fake_flag_next_index Demo.env Demo.state0 eq_refl eq_refl) as H.
  cbv zeta in H. destruct H as (Hn & _ & H).
  change (catalog_file (os Demo.state0))
    with (CatalogText ["flag{decoy_one}"; "flag{decoy_two}"]) in H. cbv iota in H.
  destruct H as (_ & _ & Hh & _).
  split; [exact Hn | exact Hh].
Defined.

(* ===================================================================== *)
(** * Further properties of the harness and of the results                *)
(* ===================================================================== *)

Section HarnessMore.
Variable E : pyenv.

Lemma nonempty_append_l (a b : string) : Py.nonempty a = true -> Py.nonempty (a +:+ b) = true.
Proof. destruct a; [discriminate | reflexivity]. Qed.

Lemma nonempty_append_r (a b : string) : Py.nonempty b = true -> Py.nonempty (a +:+ b) = true.
Proof. destruct a; [rewrite PyFacts.append_nil; auto | reflexivity]. Qed.

Lemma launch_one_coherent (payload : list byte) (s : state) :
  coherent_session (launch_one E payload s).1.
Proof.
  unfold launch_one, popen_communicate. run_monad.
  destruct (worker E _ payload) as [out err rc|out err rc|t|t t']; cbv [bind ret];
    match goal with
    | |- context [log_attempt E ?a ?b ?s0] => destruct (log_attempt E a b s0) as [[] s1]
    end; cbn [fst]; split; cbn [s_error s_returncode]; try discriminate;
    try (intros _; eexists; split; [reflexivity | reflexivity]).
  destruct (rc =? 0)%Z eqn:Hrc; [|discriminate].
  intros _. apply Z.eqb_eq in Hrc. now subst.
Qed.

Lemma launch_all_coherent (payloads : list (list byte)) (results : list vm_session)
    (s : state) :
  Forall coherent_session results ->
  Forall coherent_session (launch_all E payloads results s).1.
Proof.
  revert results s. induction payloads as [|payload rest IH]; intros results s Hr.
  - exact Hr.
  - cbn [launch_all]. unfold bind.
    pose proof (launch_one_coherent payload s) as H1.
    destruct (launch_one E payload s) as [session s1]. cbn [fst] in H1.
    apply IH. apply Forall_app. split; [exact Hr | now constructor].
Qed.

Lemma launch_vm_payloads_coherent (payloads : list (list byte)) (s : state) :
  Forall coherent_session (_launch_vm_payloads E payloads s).1.
Proof.
  destruct (binary_exists (os s)) eqn:Hb.
  - destruct payloads as [|payload rest]; [constructor|].
    unfold _launch_vm_payloads. run_monad. rewrite Hb. cbn [negb].
    apply launch_all_coherent. constructor.
  - destruct (launch_vm_payloads_spec E payloads s) as (_ & Hmiss & _).
    destruct (Hmiss Hb) as [-> _]. apply Forall_forall. intros x Hx.
    apply list_elem_of_In, in_map_iff in Hx. destruct Hx as (? & <- & _).
    split; cbn; [discriminate|]. intros _. eexists. split; reflexivity.
Qed.

(** X14.  Every session of the harness is coherent: one without an error
    comes from a worker that exited with status 0, and one without an exit
    status (the worker did not run) carries an error text. *)
Theorem harness_sessions_coherent (payloads : list (list byte)) (s : state) :
  Forall coherent_session (_launch_vm_payloads E payloads s).1.
Proof. apply launch_vm_payloads_coherent. Qed.

End HarnessMore.

Section ResultsMore.
Variable E : pyenv.

Lemma aggregate_banner (out err : string) (vm_results : list vm_session) :
  (aggregate E out err None vm_results).2
  = match vm_results with [] => None | _ => Some escalation_banner end.
Proof.
  destruct vm_results as [|x l]; [reflexivity|].
  unfold aggregate.
  destruct (collect_fragments E 1 (x :: l) _ _). reflexivity.
Qed.

Lemma write_sass_nonempty (c : exc_class) (line captured : string) :
  Py.nonempty (write_sass c line captured) = true.
Proof.
  unfold write_sass. do 3 apply nonempty_append_r. reflexivity.
Qed.

Lemma has_nonspace_append (a b : string) :
  has_nonspace (a +:+ b) = has_nonspace a || has_nonspace b.
Proof.
  induction a as [|x a IH]; rewrite ?PyFacts.append_nil, ?PyFacts.append_cons;
    [reflexivity|].
  cbn [has_nonspace]. rewrite IH. now rewrite orb_assoc.
Qed.

Lemma has_nonspace_rstrip (s : string) : has_nonspace (Py.rstrip s) = has_nonspace s.
Proof.
  induction s as [|c r IH]; [reflexivity|].
  cbn [Py.rstrip]. destruct (Py.rstrip r) as [|x r'] eqn:Hr;
    cbn [has_nonspace] in *; rewrite <- IH;
    destruct (Py.is_space c) eqn:Hs; cbn [has_nonspace]; rewrite ?Hs; reflexivity.
Qed.

Lemma has_nonspace_lstrip (s : string) :
  has_nonspace s = true -> Py.nonempty (Py.lstrip s) = true.
Proof.
  induction s as [|c r IH]; [discriminate|].
  cbn [has_nonspace Py.lstrip]. destruct (Py.is_space c); [exact IH | reflexivity].
Qed.

Lemma has_nonspace_strip (s : string) :
  has_nonspace s = true -> Py.nonempty (Py.strip s) = true.
Proof.
  intros H. unfold Py.strip. apply has_nonspace_lstrip. now rewrite has_nonspace_rstrip.
Qed.

Lemma strip_nonempty_has_nonspace (s : string) :
  Py.nonempty (Py.strip s) = true -> Py.nonempty s = true.
Proof. destruct s; [discriminate | reflexivity]. Qed.

Lemma write_sass_has_nonspace (c : exc_class) (name text captured : string) :
  has_nonspace (write_sass c (name +:+ ": " +:+ text) captured) = true.
Proof.
  unfold write_sass. rewrite !has_nonspace_append.
  replace (has_nonspace (": " +:+ text)) with true by reflexivity.
  rewrite !orb_true_r. reflexivity.
Qed.

(** The fields of a result that [execute_code] returns, on each of its
    paths. *)
Lemma returned_result_fields (code : string) (s : state) (r : ExecutionResult)
    (s' : state) :
  execute_code E code s = (Returns r, s') ->
  banned_keywords_hit r = []
  /\ fake_flag_dropped r = false
  /\ banner r = match vm_sessions r with [] => None | _ => Some escalation_banner end
  /\ ((exists text, error r = Some text /\ Py.nonempty (stderr r) = true
                    /\ (Py.nonempty text = true ->
                        Py.nonempty (Py.strip (stderr r)) = true))
      \/ (error r = None /\ stderr r = EmptyString))
  /\ Forall coherent_session (vm_sessions r).
Proof.
  intros Hr. unfold execute_code, bind in Hr. cbn [read_monotonic] in Hr.
  destruct (Py.contains "legacy_hook(" _ || Py.contains "hook(" _); [discriminate|].
  cbn [get_self self snd fst] in Hr.
  destruct (check_banned_keywords _ _) as [|k others].
  2: { destruct (log_attempt E "BAIT" _ _) as [[] s1].
       destruct (drop_fake_flag E s1) as [[[]|e] s2]; discriminate. }
  destruct (compile E _) as [p|exc].
  - destruct (guarded_exec E _ _ p _) as [st c]. destruct c as [|exc|]; [| |discriminate].
    + (* the snippet ran to its end *)
      unfold bind in Hr. cbn [read_monotonic snd fst] in Hr.
      match type of Hr with
      | context [_launch_vm_payloads E ?q ?x] =>
          pose proof (launch_vm_payloads_coherent E q x) as Hcoh;
          destruct (_launch_vm_payloads E q x) as [vm_results s1]
      end.
      cbn [fst] in Hcoh.
      pose proof (aggregate_banner (stdout_capture st) (stderr_capture st) vm_results)
        as Hban.
      destruct (aggregate E (stdout_capture st) (stderr_capture st) None vm_results)
        as [[out err] ban]. cbn [snd] in Hban.
      destruct (log_attempt E "INFO" _ s1) as [[] s2].
      injection Hr as <- _.
      cbn [banned_keywords_hit fake_flag_dropped banner vm_sessions error stderr].
      repeat (split; [first [reflexivity | exact Hban]|]).
      split; [|exact Hcoh].
      destruct err as [|c err]; [right; split; reflexivity|].
      left. eexists. split; [reflexivity|]. split; [reflexivity|].
      cbn [Py.nonempty]. auto.
    + destruct (is_JailTimeout (exc_type exc)); [|destruct (is_Exception (exc_type exc))];
        [| |discriminate]; unfold bind in Hr;
        destruct (log_attempt E "WARN" _ _) as [[] s1];
        (destruct (py_str exc) as [text|raised]; [|discriminate]);
        injection Hr as <- _;
        cbn [banned_keywords_hit fake_flag_dropped banner vm_sessions error stderr];
        repeat (split; [reflexivity|]); (split; [|constructor]); left; eexists;
        (split; [reflexivity|]); (split; [apply write_sass_nonempty|]); intros _;
        apply has_nonspace_strip, write_sass_has_nonspace.
  - destruct (is_Exception (exc_type exc)); [|discriminate].
    unfold bind in Hr. cbn [read_monotonic fst snd] in Hr.
    destruct (py_str exc) as [text|raised]; [|discriminate].
    destruct (log_attempt E "WARN" _ _) as [[] s1].
    injection Hr as <- _.
    cbn [banned_keywords_hit fake_flag_dropped banner vm_sessions error stderr].
    repeat (split; [reflexivity|]). split; [|constructor]. left. eexists.
    split; [reflexivity|]. split; [apply write_sass_nonempty|]. intros _.
    apply has_nonspace_strip, write_sass_has_nonspace.
Qed.

(** X15.  A result that [execute_code] returns never carries matched
    keywords nor the mark of a dropped decoy: a match of the filter is
    raised, not returned. *)
Theorem returned_result_has_no_keywords (code : string) (s : state)
    (r : ExecutionResult) (s' : state) :
  execute_code E code s = (Returns r, s') ->
  banned_keywords_hit r = [] /\ fake_flag_dropped r = false.
Proof.
  intros Hr. destruct (returned_result_fields code s r s' Hr) as (H1 & H2 & _). auto.
Qed.

(** X16.  In a result that [execute_code] returns, the banner is set
    exactly when there is a harness session, and it is then the escalation
    banner. *)
Theorem banner_tells_sessions (code : string) (s : state) (r : ExecutionResult)
    (s' : state) :
  execute_code E code s = (Returns r, s') ->
  banner r = match vm_sessions r with [] => None | _ => Some escalation_banner end.
Proof.
  intros Hr. destruct (returned_result_fields code s r s' Hr) as (_ & _ & H & _). exact H.
Qed.

(** X17.  In a result that [execute_code] returns, [error] is [None]
    exactly when [stderr] is the empty text. *)
Theorem error_tells_stderr (code : string) (s : state) (r : ExecutionResult)
    (s' : state) :
  execute_code E code s = (Returns r, s') ->
  (error r = None <-> stderr r = EmptyString).
Proof.
  intros Hr. destruct (returned_result_fields code s r s' Hr) as (_ & _ & _ & H & _).
  destruct H as [(text & He & Hs & _)|[He Hs]].
  - rewrite He. split; [discriminate|]. intros Hn. rewrite Hn in Hs. discriminate.
  - rewrite He, Hs. split; reflexivity.
Qed.

End ResultsMore.

(* ===================================================================== *)
(** * What a call leaves behind                                           *)
(* ===================================================================== *)

Section Traces.
Variable E : pyenv.



(** X19.  A text that mentions [hook(] is turned away before anything is
    recorded: the [NameError] is raised with the log, the warnings, the
    decoy directory and the processes as they were, and the jail
    unchanged. *)
Theorem hook_text_leaves_no_trace (code : string) (s : state) :
  Py.contains "hook(" (sanitize code) = true ->
  (execute_code E code s).1 = Raises (RaisedExn legacy_hook_error)
  /\ bait_log (os (execute_code E code s).2) = bait_log (os s)
  /\ warnings (os (execute_code E code s).2) = warnings (os s)
  /\ flag_dir (os (execute_code E code s).2) = flag_dir (os s)
  /\ popen_calls (os (execute_code E code s).2) = popen_calls (os s)
  /\ self (execute_code E code s).2 = self s.
Proof.
  intros H. rewrite <- mentions_hook_iff in H.
  rewrite (execute_code_hook E code s H). repeat split.
Qed.







End Traces.

(* ===================================================================== *)
(** * The namespace, the facade and the callers                           *)
(* ===================================================================== *)

Section Callers.
Variable E : pyenv.

(** X21.  The [Locker] bound to [__globals__] is a read-only copy of the
    other globals: reading a key from it gives what the globals bind to that
    key, it does not hold itself, and a key it lacks is a [KeyError]. *)
Theorem locker_is_a_snapshot :
  exists _mapping,
    _build_exec_environment !! "__globals__" = Some (NLocker _mapping)
    /\ (forall key o, Locker_getitem E _mapping key = inl o
                      <-> _build_exec_environment !! key = Some (NObj o))
    /\ Locker_contains _mapping "__globals__" = false
    /\ Locker_keys _mapping = dom _build_exec_environment ∖ {["__globals__"]}
    /\ (forall key, Locker_contains _mapping key = false ->
          exists e, Locker_getitem E _mapping key = inr e
                    /\ exc_type e = OtherException "KeyError").
Proof.
  unfold _build_exec_environment. eexists.
  split; [apply lookup_insert_eq|].
  set (m := <["vm_escape" := GVmEscape]> _).
  assert (Hself : m !! "__globals__" = None) by reflexivity.
  split; [|split; [|split]].
  - intros key o. unfold Locker_getitem.
    destruct (decide (key = "__globals__")) as [->|Hne].
    + rewrite Hself, lookup_insert_eq. split; discriminate.
    + rewrite lookup_insert_ne by congruence. rewrite lookup_fmap.
      destruct (m !! key); cbn; split; congruence.
  - unfold Locker_contains. now rewrite Hself.
  - unfold Locker_keys. rewrite dom_insert_L, dom_fmap_L.
    apply not_elem_of_dom in Hself. set_solver.
  - intros key. unfold Locker_contains, Locker_getitem.
    destruct (m !! key); [discriminate|]. intros _. eexists. split; reflexivity.
Qed.

(** X22.  A name resolves in the namespace exactly when it is one of the
    six globals or a key of [SAFE_BUILTINS]; none of the default forbidden
    terms is such a name. *)
Theorem namespace_names (name : string) :
  (resolve_name _build_exec_environment name = None
   <-> (name ∉ ["__builtins__"; "__name__"; "__doc__"; "hint"; "vm_escape"; "__globals__"])
       /\ SAFE_BUILTINS !! name = None)
  /\ Forall (fun keyword => resolve_name _build_exec_environment keyword = None)
            DEFAULT_BANNED_KEYWORDS.
Proof.
  split; [|repeat constructor].
  assert (Hdom : _build_exec_environment !! name = None
                 <-> (name ∉ ["__builtins__"; "__name__"; "__doc__"; "hint";
                              "vm_escape"; "__globals__"])).
  { rewrite <- not_elem_of_dom. unfold _build_exec_environment.
    rewrite dom_insert_L, dom_fmap_L, !dom_insert_L, dom_empty_L.
    rewrite !elem_of_cons, elem_of_nil, !elem_of_union, !elem_of_singleton, elem_of_empty.
    tauto. }
  unfold resolve_name.
  change (_build_exec_environment !! "__builtins__")
    with (Some (NObj (GBuiltins SAFE_BUILTINS))).
  destruct (_build_exec_environment !! name) as [o|].
  - split; [discriminate|]. intros [Hn _]. apply Hdom in Hn. discriminate.
  - destruct (SAFE_BUILTINS !! name); cbn.
    + split; [discriminate|]. intros [_ ?]. discriminate.
    + split; [|reflexivity]. intros _. split; [|reflexivity]. now apply Hdom.
Qed.


(** X24.  What [run_in_jail] raises left [execute_code] as an exception:
    either one outside [Exception], handed on as it is, or what [str]
    raised on an exception of [Exception] that the function tried to
    format for its dictionary.  The [NameError] for a text that mentions
    [hook(] comes back as the dictionary of an unexpected failure, which
    has no [stderr] key. *)
Theorem run_in_jail_raises (code : string) (m : sandbox_state) :
  (forall e m', run_in_jail E code m = (SandboxRaises e, m') ->
     exists exc s',
       execute_code E code (_PYJAIL m) = (Raises (RaisedExn exc), s')
       /\ ((is_Exception (exc_type exc) = false /\ e = exc)
           \/ (is_Exception (exc_type exc) = true /\ py_str exc = inr e)))
  /\ (Py.contains "hook(" (sanitize code) = true ->
      exists d m', run_in_jail E code m = (SandboxReturns d, m')
        /\ k_error d = Some ("PyJail encountered an unexpected issue: "
                             +:+ exc_str legacy_hook_error)
        /\ k_stderr d = None
        /\ k_banned_keywords d = []).
Proof.
  split.
  - intros e m'. unfold run_in_jail.
    destruct (execute_code E code (_PYJAIL m)) as [[r|[exc|v]|] s].
    + discriminate.
    + destruct (is_Exception (exc_type exc)) eqn:Hx.
      * destruct (py_str exc) as [text|raised] eqn:Hs; [discriminate|].
        intros [= <- _]. eauto 6.
      * intros [= <- _]. eauto 6.
    + destruct (log_attempt E "WARN" _ s). discriminate.
    + discriminate.
  - intros H. rewrite <- mentions_hook_iff in H. unfold run_in_jail.
    rewrite (execute_code_hook E code (_PYJAIL m) H).
    do 2 eexists. split; [reflexivity|]. repeat split.
Qed.

(** X25.  [run_in_jail] hands on a returned result as it is: output, error,
    stderr, banner and sessions are those of the result (the remark it has
    for a [SyntaxError] without stderr is never added, since a result with
    an error has a stderr that is not blank), and [vm_engaged] is true
    exactly when the result has the escalation banner. *)
Theorem run_in_jail_passes_result (code : string) (m : sandbox_state)
    (r : ExecutionResult) (s' : state) :
  execute_code E code (_PYJAIL m) = (Returns r, s') ->
  exists d m',
    run_in_jail E code m = (SandboxReturns d, m')
    /\ k_output d = stdout r
    /\ k_error d = error r
    /\ k_stderr d = Some (stderr r)
    /\ k_banner d = banner r
    /\ k_vm_sessions d = Some (vm_sessions r)
    /\ (k_vm_engaged d = Some true <-> banner r = Some escalation_banner)
    /\ _PYJAIL m' = s'.
Proof.
  intros Hr. destruct (returned_result_fields E code (_PYJAIL m) r s' Hr)
    as (_ & _ & Hban & Herr & _).
  unfold run_in_jail. rewrite Hr. do 2 eexists. split; [reflexivity|].
  cbn [k_output k_error k_stderr k_banner k_vm_sessions k_vm_engaged _PYJAIL].
  split; [reflexivity|]. split.
  { destruct Herr as [(text & He & _ & Hs)|[He _]]; rewrite He; [|reflexivity].
    destruct (Py.nonempty text) eqn:Ht; [|reflexivity].
    rewrite (Hs eq_refl). reflexivity. }
  repeat (split; [reflexivity|]). split; [|reflexivity].
  rewrite Hban. destruct (vm_sessions r); split; congruence.
Qed.

(** X26.  A text that passes the filter and that [compile] refuses with a
    [SyntaxError] is not run and nothing is raised: the result has the error
    [SyntaxError: ...], an empty [stdout], a [stderr] made of the remark on
    the parser and of the error, each on a line, and no session; no process
    is started and the decoy directory is as before. *)
Theorem syntax_error_is_returned (code : string) (s : state) (msg : string) :
  mentions_hook (sanitize code) = false ->
  check_banned_keywords (self s) (sanitize code) = [] ->
  compile E (sanitize code) = inr (Exn SyntaxError msg) ->
  exists r s',
    execute_code E code s = (Returns r, s')
    /\ error r = Some ("SyntaxError: " +:+ msg)
    /\ stdout r = EmptyString
    /\ stderr r = "The parser cried a little. Maybe check your indentation?" +:+ Py.nl
                  +:+ "SyntaxError: " +:+ msg +:+ Py.nl
    /\ vm_sessions r = []
    /\ popen_calls (os s') = popen_calls (os s)
    /\ flag_dir (os s') = flag_dir (os s).
Proof.
  intros Hh Hk Hc.
  destruct (execute_code_compile_error E code s _ Hh Hk Hc) as [H _].
  destruct (H eq_refl) as (r & s' & Hx & He & Ho & Hs & Hv & Hf).
  exists r, s'. split; [exact Hx|]. split; [exact He|]. split; [exact Ho|].
  split; [rewrite Hs; reflexivity|]. split; [exact Hv|].
  destruct Hf as (Hd & _ & _ & _ & _ & _ & Hp & _). split; [exact Hp | exact Hd].
Qed.

End Callers.

(* ===================================================================== *)
(** * The further properties at concrete inputs                           *)
(* ===================================================================== *)

(** The result for [print('hi')] carries no keyword and no mark. *)
Lemma returned_result_has_no_keywords_witness :
  exists r s',
    execute_code Demo.env "print('hi')" Demo.state0 = (Returns r, s')
    /\ banned_keywords_hit r = [] /\ fake_flag_dropped r = false.
Proof.
  destruct (execute_code Demo.env "print('hi')" Demo.state0) as [o s'] eqn:Hx.
  assert (Ho : exists r, o = Returns r).
  { eexists. apply (f_equal fst) in Hx. cbn [fst] in Hx. rewrite <- Hx.
    vm_compute. reflexivity. }
  destruct Ho as [r ->]. exists r, s'. split; [reflexivity|].
  exact (returned_result_has_no_keywords Demo.env "print('hi')" Demo.state0 r s' Hx).
Defined.

(** The banner of the result for a snippet that queues one payload. *)
Lemma banner_tells_sessions_witness :
  exists r s',
    execute_code Demo.env "vm_escape(b'A')" Demo.state0 = (Returns r, s')
    /\ banner r = match vm_sessions r with [] => None | _ => Some escalation_banner end.
Proof.
  destruct (execute_code Demo.env "vm_escape(b'A')" Demo.state0) as [o s'] eqn:Hx.
  assert (Ho : exists r, o = Returns r).
  { eexists. apply (f_equal fst) in Hx. cbn [fst] in Hx. rewrite <- Hx.
    vm_compute. reflexivity. }
  destruct Ho as [r ->]. exists r, s'. split; [reflexivity|].
  exact (banner_tells_sessions Demo.env "vm_escape(b'A')" Demo.state0 r s' Hx).
Defined.

(** The result for a division by zero. *)
Lemma error_tells_stderr_witness :
  exists r s',
    execute_code Demo.env "1/0" Demo.state0 = (Returns r, s')
    /\ (error r = None <-> stderr r = EmptyString).
Proof.
  destruct (execute_code Demo.env "1/0" Demo.state0) as [o s'] eqn:Hx.
  assert (Ho : exists r, o = Returns r).
  { eexists. apply (f_equal fst) in Hx. cbn [fst] in Hx. rewrite <- Hx.
    vm_compute. reflexivity. }
  destruct Ho as [r ->]. exists r, s'. split; [reflexivity|].
  exact (error_tells_stderr Demo.env "1/0" Demo.state0 r s' Hx).
Defined.

(** A call of the retired hook. *)
Lemma hook_text_leaves_no_trace_witness :
  Py.contains "hook(" (sanitize "hook(1)") = true
  /\ (execute_code Demo.env "hook(1)" Demo.state0).1 = Raises (RaisedExn legacy_hook_error)
  /\ bait_log (os (execute_code Demo.env "hook(1)" Demo.state0).2) = bait_log (os Demo.state0)
  /\ flag_dir (os (execute_code Demo.env "hook(1)" Demo.state0).2) = flag_dir (os Demo.state0).
Proof.
  assert (H : Py.contains "hook(" (sanitize "hook(1)") = true) by reflexivity.
  split; [exact H|].
  destruct (hook_text_leaves_no_trace Demo.env "hook(1)" Demo.state0 H)
    as (H1 & H2 & _ & H4 & _).
  split; [exact H1|]. split; [exact H2 | exact H4].
Defined.



(** [run_in_jail] on [print('hi')]. *)
Lemma run_in_jail_passes_result_witness :
  exists r s' d m',
    execute_code Demo.env "print('hi')" Demo.state0 = (Returns r, s')
    /\ run_in_jail Demo.env "print('hi')" {| _PYJAIL := Demo.state0; logger_records := [] |}
       = (SandboxReturns d, m')
    /\ k_output d = stdout r
    /\ k_error d = error r
    /\ k_stderr d = Some (stderr r).
Proof.
  destruct (execute_code Demo.env "print('hi')" Demo.state0) as [o s'] eqn:Hx.
  assert (Ho : exists r, o = Returns r).
  { eexists. apply (f_equal fst) in Hx. cbn [fst] in Hx. rewrite <- Hx.
    vm_compute. reflexivity. }
  destruct Ho as [r ->].
  destruct (run_in_jail_passes_result Demo.env "print('hi')"
              {| _PYJAIL := Demo.state0; logger_records := [] |} r s' Hx)
    as (d & m' & Hr & Ho & He & Hs & _).
  exists r, s', d, m'. split; [reflexivity|]. split; [exact Hr|].
  split; [exact Ho|]. split; [exact He | exact Hs].
Defined.

(** A text that does not compile. *)
Lemma syntax_error_is_returned_witness :
  mentions_hook (sanitize "def") = false
  /\ check_banned_keywords (self Demo.state0) (sanitize "def") = []
  /\ compile Demo.env (sanitize "def")
     = inr (Exn SyntaxError "invalid syntax (<pyjail>, line 1)")
  /\ exists r s',
       execute_code Demo.env "def" Demo.state0 = (Returns r, s')
       /\ error r = Some "SyntaxError: invalid syntax (<pyjail>, line 1)"
       /\ popen_calls (os s') = [].
Proof.
  assert (H1 : mentions_hook (sanitize "def") = false) by reflexivity.
  assert (H2 : check_banned_keywords (self Demo.state0) (sanitize "def") = [])
    by reflexivity.
  assert (H3 : compile Demo.env (sanitize "def")
               = inr (Exn SyntaxError "invalid syntax (<pyjail>, line 1)"))
    by reflexivity.
  split; [exact H1|]. split; [exact H2|]. split; [exact H3|].
  destruct (syntax_error_is_returned Demo.env "def" Demo.state0 _ H1 H2 H3)
    as (r & s' & Hx & He & _ & _ & _ & Hp & _).
  exists r, s'. split; [exact Hx|]. split; [exact He | exact Hp].
Defined.
